(** * honeybee-schema: the Model schema and its geometry objects

    A shallow embedding of [honeybee_schema/model.py].  The module declares
    pydantic models; constructing one of them from keyword data either
    returns the validated object or raises a [ValidationError] that lists,
    per field location, what went wrong.  The embedding keeps that shape:

    - for every class [C] there is a record [CObj] of the data handed to the
      constructor (every key may be absent, hence [option]), the record [C]
      of a constructed object, the constructor [C_parse_obj] and the
      serialiser [C_dict];
    - a field declaration [f: T = Field(..., min_items=4)] becomes one line
      [required "f" ... (conlist (Some 4) None ...)] of the constructor;
    - a [@validator] body becomes a function into [Outcome], the functions
      keep their names ([check_num_items], [suface_bc_objects], ...).

    Three modules imported by [model.py] are not part of the sources at
    hand: [_base.py] ([NamedBaseModel]), [bc.py] (the boundary conditions)
    and [energy/properties.py] (the per-engine payloads).  What is needed of
    them is either a variable of the section or a definition marked
    "Modelled from the spec". *)

From Stdlib Require Import String List ZArith QArith Bool Lia.
Import ListNotations.
Close Scope Q_scope.
Local Open Scope string_scope.
Local Open Scope nat_scope.

Set Implicit Arguments.

(** ** Python values *)

(** A Python [float]: the finite values are rationals, and there are the
    three values that are not finite. *)
Inductive float : Type :=
| Finite (q : Q)
| PosInf
| NegInf
| NaN.

(** [v >= c] and [v < c] for an integer literal [c], as Python compares
    them: every comparison with [nan] is false. *)
Definition float_ge (v : float) (c : Z) : bool :=
  match v with
  | Finite q => Qle_bool (inject_Z c) q
  | PosInf => true
  | NegInf | NaN => false
  end.

Definition float_lt (v : float) (c : Z) : bool :=
  match v with
  | Finite q => negb (Qle_bool (inject_Z c) q)
  | NegInf => true
  | PosInf | NaN => false
  end.

Definition float_of_int (z : Z) : float := Finite (inject_Z z).

(** ** Validation errors *)

Inductive LocItem : Type :=
| Key (k : string)
| Index (i : nat).

Definition Loc : Type := list LocItem.

(** The error classes of pydantic that the declarations of [model.py] can
    raise, and [AssertionError] for the [assert] statements of its
    validators. *)
Inductive ErrorMsg : Type :=
| MissingError
| StrRegexError (pattern : string)
| NameConstraintError
| EnumError
| UnionError
| ListMinLengthError (limit_value : nat)
| ListMaxLengthError (limit_value : nat)
| NumberNotGeError (limit_value : Z)
| NumberNotLtError (limit_value : Z)
| AssertionError (msg : string).

Definition ErrorWrapper : Type := (Loc * ErrorMsg)%type.

(** One validator call: it returns a value or raises. *)
Inductive Outcome (A : Type) : Type :=
| Return (a : A)
| Raise (e : ErrorMsg).

Arguments Return {A} a.
Arguments Raise {A} e.

Definition bind {A B : Type} (o : Outcome A) (k : A -> Outcome B) : Outcome B :=
  match o with
  | Return a => k a
  | Raise e => Raise e
  end.

Notation "o ;; k" := (bind o (fun _ => k))
  (at level 61, right associativity).

(** [assert cond, msg] *)
Definition assert (cond : bool) (msg : string) : Outcome unit :=
  if cond then Return tt else Raise (AssertionError msg).

(** [for x in l: body] where the body can only fall through or raise. *)
Fixpoint for_in {A : Type} (l : list A) (body : A -> Outcome unit) : Outcome unit :=
  match l with
  | [] => Return tt
  | x :: rest => body x ;; for_in rest body
  end.

(** The construction of a model: the object, or a [ValidationError] with
    the errors of all its fields. *)
Inductive Result (A : Type) : Type :=
| Ok (a : A)
| ValidationError (errors : list ErrorWrapper).

Arguments Ok {A} a.
Arguments ValidationError {A} errors.

Definition errors_of {A : Type} (r : Result A) : list ErrorWrapper :=
  match r with
  | Ok _ => []
  | ValidationError es => es
  end.

Definition is_ok {A : Type} (r : Result A) : bool :=
  match r with
  | Ok _ => true
  | ValidationError _ => false
  end.

Definition fmap {A B : Type} (f : A -> B) (r : Result A) : Result B :=
  match r with
  | Ok a => Ok (f a)
  | ValidationError es => ValidationError es
  end.

(** The fields of a model are validated one after the other and the errors
    of all of them are kept. *)
Definition ap {A B : Type} (rf : Result (A -> B)) (ra : Result A) : Result B :=
  match rf, ra with
  | Ok f, Ok a => Ok (f a)
  | Ok _, ValidationError es => ValidationError es
  | ValidationError es, Ok _ => ValidationError es
  | ValidationError es1, ValidationError es2 => ValidationError (es1 ++ es2)
  end.

Notation "f <$> r" := (fmap f r) (at level 62, left associativity).
Notation "rf <*> ra" := (ap rf ra) (at level 62, left associativity).

(** Errors of a nested value are reported under the location of the field
    or list index that holds it. *)
Definition at_loc {A : Type} (i : LocItem) (r : Result A) : Result A :=
  match r with
  | Ok a => Ok a
  | ValidationError es => ValidationError (map (fun e => (i :: fst e, snd e)) es)
  end.

Definition lift {A : Type} (o : Outcome A) : Result A :=
  match o with
  | Return a => Ok a
  | Raise e => ValidationError [([], e)]
  end.

(** The validators of one field run in sequence; the first that raises
    ends the validation of the field. *)
Definition and_then {A B : Type} (r : Result A) (validator : A -> Outcome B) : Result B :=
  match r with
  | Ok a => lift (validator a)
  | ValidationError es => ValidationError es
  end.

(** [f: T = Field(...)]: a required field. *)
Definition required {A B : Type} (key : string) (value : option A)
    (validate : A -> Result B) : Result B :=
  match value with
  | None => ValidationError [([Key key], MissingError)]
  | Some v => at_loc (Key key) (validate v)
  end.

(** [f: T = Field(default=None)]: absent stays [None], and no validator runs
    on an absent value. *)
Definition optional {A B : Type} (key : string) (value : option A)
    (validate : A -> Result B) : Result (option B) :=
  match value with
  | None => Ok None
  | Some v => at_loc (Key key) (Some <$> validate v)
  end.

(** [f: T = Field(default=d)]: the default is taken as it is. *)
Definition with_default {A B : Type} (key : string) (value : option A) (d : B)
    (validate : A -> Result B) : Result B :=
  match value with
  | None => Ok d
  | Some v => at_loc (Key key) (validate v)
  end.

(** A value that needs no validation of its own. *)
Definition any {A : Type} (v : A) : Result A := Ok v.

(** [List[T]]: every item is validated, under its index. *)
Fixpoint list_items {A B : Type} (item : A -> Result B) (i : nat) (v : list A)
    : Result (list B) :=
  match v with
  | [] => Ok []
  | a :: rest => cons <$> at_loc (Index i) (item a) <*> list_items item (S i) rest
  end.

Definition List_ {A B : Type} (item : A -> Result B) (v : list A) : Result (list B) :=
  list_items item 0 v.

(** [min_items] and [max_items]: the length is checked before the items. *)
Definition list_length_validator {A : Type} (min_items max_items : option nat)
    (v : list A) : Outcome (list A) :=
  match min_items with
  | Some lo => if length v <? lo then Raise (ListMinLengthError lo) else Return v
  | None => Return v
  end ;;
  match max_items with
  | Some hi => if hi <? length v then Raise (ListMaxLengthError hi) else Return v
  | None => Return v
  end.

Definition conlist {A B : Type} (min_items max_items : option nat)
    (item : A -> Result B) (v : list A) : Result (list B) :=
  match list_length_validator min_items max_items v with
  | Return v' => List_ item v'
  | Raise e => ValidationError [([], e)]
  end.

(** [constr(regex='^Lit$')] for a literal [Lit] of letters.  The pattern is
    matched with [re.match], whose [$] also matches before a newline that
    ends the string. *)
Definition newline : string := String (Ascii.ascii_of_nat 10) EmptyString.

Definition re_match_literal (lit s : string) : bool :=
  (s =? lit)%string || (s =? lit ++ newline)%string.

Definition constr (lit : string) (s : string) : Result string :=
  if re_match_literal lit s then Ok s
  else ValidationError [([], StrRegexError ("^" ++ lit ++ "$"))].

(** [ge=lo, lt=hi] on a number: the lower bound is tested first. *)
Definition number_size_validator (ge lt : Z) (v : float) : Result float :=
  if negb (float_ge v ge) then ValidationError [([], NumberNotGeError ge)]
  else if negb (float_lt v lt) then ValidationError [([], NumberNotLtError lt)]
  else Ok v.

(** ** The schema *)

Section Schema.

(** [_base.py] is missing: the constraint that [NamedBaseModel] puts on
    [name] (a character set and a maximal length) is a variable. *)
Variable valid_name : string -> bool.

(** [energy/properties.py] is missing: the payloads of the engines are
    opaque values, handed over already constructed. *)
Variable ShadeEnergyPropertiesAbridged : Type.
Variable DoorEnergyPropertiesAbridged : Type.
Variable ApertureEnergyPropertiesAbridged : Type.
Variable FaceEnergyPropertiesAbridged : Type.
Variable RoomEnergyPropertiesAbridged : Type.
Variable ModelEnergyProperties : Type.

(** *** NamedBaseModel *)

Definition NamedBaseModel_name (s : string) : Result string :=
  if valid_name s then Ok s else ValidationError [([], NameConstraintError)].

(** Modelled from the spec: [_base.py] is missing; [display_name] is free
    text that defaults to [name] when it is absent. *)
Definition NamedBaseModel_display_name (name : string) (display_name : option string)
    : string :=
  match display_name with
  | Some d => d
  | None => name
  end.

(** *** Boundary conditions *)

(** Modelled from the spec: [bc.py] is missing; the boundary condition is a
    tagged union, [Ground], [Outdoors] and [Adiabatic] carry no linked
    objects and [Surface] carries the names of the objects it links. *)
Inductive BoundaryCondition : Type :=
| Ground
| Outdoors
| Adiabatic
| Surface (objects : list string).

Definition bc_type (v : BoundaryCondition) : string :=
  match v with
  | Ground => "Ground"
  | Outdoors => "Outdoors"
  | Adiabatic => "Adiabatic"
  | Surface _ => "Surface"
  end.

Definition boundary_condition_objects (v : BoundaryCondition) : list string :=
  match v with
  | Surface objects => objects
  | _ => []
  end.

(** [Union[Outdoors, Surface]] *)
Definition Union_Outdoors_Surface (v : BoundaryCondition) : Result BoundaryCondition :=
  match v with
  | Outdoors | Surface _ => Ok v
  | Ground | Adiabatic => ValidationError [([], UnionError)]
  end.

(** [Union[Ground, Outdoors, Adiabatic, Surface]] *)
Definition Union_Ground_Outdoors_Adiabatic_Surface (v : BoundaryCondition)
    : Result BoundaryCondition :=
  Ok v.

(** *** Plane *)

Record PlaneObj : Type := {
  PlaneObj_type : option string;
  PlaneObj_n : option (list float);
  PlaneObj_o : option (list float);
  PlaneObj_x : option (list float)
}.

Record Plane : Type := {
  Plane_type : string;
  Plane_n : list float;
  Plane_o : list float;
  Plane_x : option (list float)
}.

Definition Plane_parse_obj (obj : PlaneObj) : Result Plane :=
  Build_Plane
    <$> with_default "type" (PlaneObj_type obj) "Plane" (constr "Plane")
    <*> required "n" (PlaneObj_n obj) (conlist (Some 3) (Some 3) any)
    <*> required "o" (PlaneObj_o obj) (conlist (Some 3) (Some 3) any)
    <*> optional "x" (PlaneObj_x obj) (conlist (Some 3) (Some 3) any).

Definition Plane_dict (p : Plane) : PlaneObj :=
  {| PlaneObj_type := Some (Plane_type p);
     PlaneObj_n := Some (Plane_n p);
     PlaneObj_o := Some (Plane_o p);
     PlaneObj_x := Plane_x p |}.

(** *** Face3D *)

Record Face3DObj : Type := {
  Face3DObj_type : option string;
  Face3DObj_boundary : option (list (list float));
  Face3DObj_holes : option (list (list (list float)));
  Face3DObj_plane : option PlaneObj
}.

Record Face3D : Type := {
  Face3D_type : string;
  Face3D_boundary : list (list float);
  Face3D_holes : option (list (list (list float)));
  Face3D_plane : option Plane
}.

Definition xyz_msg : string := "Number of floats must be 3 for (x, y, z).".

Definition check_num_items (v : list (list float)) : Outcome (list (list float)) :=
  for_in v (fun i =>
    assert (length i =? 3) xyz_msg) ;;
  Return v.

Definition check_num_items_holes (v : list (list (list float)))
    : Outcome (list (list (list float))) :=
  for_in v (fun pt_list =>
    for_in pt_list (fun pt =>
      assert (length pt =? 3) xyz_msg)) ;;
  Return v.

Definition Face3D_parse_obj (obj : Face3DObj) : Result Face3D :=
  Build_Face3D
    <$> with_default "type" (Face3DObj_type obj) "Face3D" (constr "Face3D")
    <*> required "boundary" (Face3DObj_boundary obj)
          (fun v => and_then (List_ (List_ any) v) check_num_items)
    <*> optional "holes" (Face3DObj_holes obj)
          (fun v => and_then (List_ (List_ (List_ any)) v) check_num_items_holes)
    <*> optional "plane" (Face3DObj_plane obj) Plane_parse_obj.

Definition Face3D_dict (g : Face3D) : Face3DObj :=
  {| Face3DObj_type := Some (Face3D_type g);
     Face3DObj_boundary := Some (Face3D_boundary g);
     Face3DObj_holes := Face3D_holes g;
     Face3DObj_plane := option_map Plane_dict (Face3D_plane g) |}.

(** *** Shade *)

Record ShadePropertiesAbridgedObj : Type := {
  ShadePropertiesAbridgedObj_type : option string;
  ShadePropertiesAbridgedObj_energy : option ShadeEnergyPropertiesAbridged
}.

Record ShadePropertiesAbridged : Type := {
  ShadePropertiesAbridged_type : string;
  ShadePropertiesAbridged_energy : option ShadeEnergyPropertiesAbridged
}.

Definition ShadePropertiesAbridged_parse_obj (obj : ShadePropertiesAbridgedObj)
    : Result ShadePropertiesAbridged :=
  Build_ShadePropertiesAbridged
    <$> with_default "type" (ShadePropertiesAbridgedObj_type obj)
          "ShadePropertiesAbridged" (constr "ShadePropertiesAbridged")
    <*> optional "energy" (ShadePropertiesAbridgedObj_energy obj) any.

Definition ShadePropertiesAbridged_dict (p : ShadePropertiesAbridged)
    : ShadePropertiesAbridgedObj :=
  {| ShadePropertiesAbridgedObj_type := Some (ShadePropertiesAbridged_type p);
     ShadePropertiesAbridgedObj_energy := ShadePropertiesAbridged_energy p |}.

Record ShadeObj : Type := {
  ShadeObj_name : option string;
  ShadeObj_display_name : option string;
  ShadeObj_type : option string;
  ShadeObj_geometry : option Face3DObj;
  ShadeObj_properties : option ShadePropertiesAbridgedObj
}.

Record Shade : Type := {
  Shade_name : string;
  Shade_display_name : string;
  Shade_type : string;
  Shade_geometry : Face3D;
  Shade_properties : ShadePropertiesAbridged
}.

Definition Shade_init (name : string) (display_name : option string) : _ :=
  Build_Shade name (NamedBaseModel_display_name name display_name).

Definition Shade_parse_obj (obj : ShadeObj) : Result Shade :=
  Shade_init
    <$> required "name" (ShadeObj_name obj) NamedBaseModel_name
    <*> optional "display_name" (ShadeObj_display_name obj) any
    <*> with_default "type" (ShadeObj_type obj) "Shade" (constr "Shade")
    <*> required "geometry" (ShadeObj_geometry obj) Face3D_parse_obj
    <*> required "properties" (ShadeObj_properties obj) ShadePropertiesAbridged_parse_obj.

Definition Shade_dict (s : Shade) : ShadeObj :=
  {| ShadeObj_name := Some (Shade_name s);
     ShadeObj_display_name := Some (Shade_display_name s);
     ShadeObj_type := Some (Shade_type s);
     ShadeObj_geometry := Some (Face3D_dict (Shade_geometry s));
     ShadeObj_properties := Some (ShadePropertiesAbridged_dict (Shade_properties s)) |}.

(** *** Door *)

Record DoorPropertiesAbridgedObj : Type := {
  DoorPropertiesAbridgedObj_type : option string;
  DoorPropertiesAbridgedObj_energy : option DoorEnergyPropertiesAbridged
}.

Record DoorPropertiesAbridged : Type := {
  DoorPropertiesAbridged_type : string;
  DoorPropertiesAbridged_energy : option DoorEnergyPropertiesAbridged
}.

Definition DoorPropertiesAbridged_parse_obj (obj : DoorPropertiesAbridgedObj)
    : Result DoorPropertiesAbridged :=
  Build_DoorPropertiesAbridged
    <$> with_default "type" (DoorPropertiesAbridgedObj_type obj)
          "DoorPropertiesAbridged" (constr "DoorPropertiesAbridged")
    <*> optional "energy" (DoorPropertiesAbridgedObj_energy obj) any.

Definition DoorPropertiesAbridged_dict (p : DoorPropertiesAbridged)
    : DoorPropertiesAbridgedObj :=
  {| DoorPropertiesAbridgedObj_type := Some (DoorPropertiesAbridged_type p);
     DoorPropertiesAbridgedObj_energy := DoorPropertiesAbridged_energy p |}.

Record DoorObj : Type := {
  DoorObj_name : option string;
  DoorObj_display_name : option string;
  DoorObj_type : option string;
  DoorObj_geometry : option Face3DObj;
  DoorObj_boundary_condition : option BoundaryCondition;
  DoorObj_is_glass : option bool;
  DoorObj_properties : option DoorPropertiesAbridgedObj
}.

Record Door : Type := {
  Door_name : string;
  Door_display_name : string;
  Door_type : string;
  Door_geometry : Face3D;
  Door_boundary_condition : BoundaryCondition;
  Door_is_glass : bool;
  Door_properties : DoorPropertiesAbridged
}.

Definition Door_suface_bc_objects (v : BoundaryCondition) : Outcome BoundaryCondition :=
  (if (bc_type v =? "Surface")%string
   then assert (length (boundary_condition_objects v) =? 3)
          "Door Surface boundary condition must have 3 boundary_condition_objects."
   else Return tt) ;;
  Return v.

Definition Door_init (name : string) (display_name : option string) : _ :=
  Build_Door name (NamedBaseModel_display_name name display_name).

Definition Door_parse_obj (obj : DoorObj) : Result Door :=
  Door_init
    <$> required "name" (DoorObj_name obj) NamedBaseModel_name
    <*> optional "display_name" (DoorObj_display_name obj) any
    <*> with_default "type" (DoorObj_type obj) "Door" (constr "Door")
    <*> required "geometry" (DoorObj_geometry obj) Face3D_parse_obj
    <*> required "boundary_condition" (DoorObj_boundary_condition obj)
          (fun v => and_then (Union_Outdoors_Surface v) Door_suface_bc_objects)
    <*> with_default "is_glass" (DoorObj_is_glass obj) false any
    <*> required "properties" (DoorObj_properties obj) DoorPropertiesAbridged_parse_obj.

Definition Door_dict (d : Door) : DoorObj :=
  {| DoorObj_name := Some (Door_name d);
     DoorObj_display_name := Some (Door_display_name d);
     DoorObj_type := Some (Door_type d);
     DoorObj_geometry := Some (Face3D_dict (Door_geometry d));
     DoorObj_boundary_condition := Some (Door_boundary_condition d);
     DoorObj_is_glass := Some (Door_is_glass d);
     DoorObj_properties := Some (DoorPropertiesAbridged_dict (Door_properties d)) |}.

(** *** Aperture *)

Record AperturePropertiesAbridgedObj : Type := {
  AperturePropertiesAbridgedObj_type : option string;
  AperturePropertiesAbridgedObj_energy : option ApertureEnergyPropertiesAbridged
}.

Record AperturePropertiesAbridged : Type := {
  AperturePropertiesAbridged_type : string;
  AperturePropertiesAbridged_energy : option ApertureEnergyPropertiesAbridged
}.

Definition AperturePropertiesAbridged_parse_obj (obj : AperturePropertiesAbridgedObj)
    : Result AperturePropertiesAbridged :=
  Build_AperturePropertiesAbridged
    <$> with_default "type" (AperturePropertiesAbridgedObj_type obj)
          "AperturePropertiesAbridged" (constr "AperturePropertiesAbridged")
    <*> optional "energy" (AperturePropertiesAbridgedObj_energy obj) any.

Definition AperturePropertiesAbridged_dict (p : AperturePropertiesAbridged)
    : AperturePropertiesAbridgedObj :=
  {| AperturePropertiesAbridgedObj_type := Some (AperturePropertiesAbridged_type p);
     AperturePropertiesAbridgedObj_energy := AperturePropertiesAbridged_energy p |}.

Record ApertureObj : Type := {
  ApertureObj_name : option string;
  ApertureObj_display_name : option string;
  ApertureObj_type : option string;
  ApertureObj_geometry : option Face3DObj;
  ApertureObj_boundary_condition : option BoundaryCondition;
  ApertureObj_is_operable : option bool;
  ApertureObj_indoor_shades : option (list ShadeObj);
  ApertureObj_outdoor_shades : option (list ShadeObj);
  ApertureObj_properties : option AperturePropertiesAbridgedObj
}.

Record Aperture : Type := {
  Aperture_name : string;
  Aperture_display_name : string;
  Aperture_type : string;
  Aperture_geometry : Face3D;
  Aperture_boundary_condition : BoundaryCondition;
  Aperture_is_operable : bool;
  Aperture_indoor_shades : option (list Shade);
  Aperture_outdoor_shades : option (list Shade);
  Aperture_properties : AperturePropertiesAbridged
}.

Definition Aperture_suface_bc_objects (v : BoundaryCondition)
    : Outcome BoundaryCondition :=
  (if (bc_type v =? "Surface")%string
   then assert (length (boundary_condition_objects v) =? 3)
          "Aperture Surface boundary condition must have 3 boundary_condition_objects."
   else Return tt) ;;
  Return v.

Definition Aperture_init (name : string) (display_name : option string) : _ :=
  Build_Aperture name (NamedBaseModel_display_name name display_name).

Definition Aperture_parse_obj (obj : ApertureObj) : Result Aperture :=
  Aperture_init
    <$> required "name" (ApertureObj_name obj) NamedBaseModel_name
    <*> optional "display_name" (ApertureObj_display_name obj) any
    <*> with_default "type" (ApertureObj_type obj) "Aperture" (constr "Aperture")
    <*> required "geometry" (ApertureObj_geometry obj) Face3D_parse_obj
    <*> required "boundary_condition" (ApertureObj_boundary_condition obj)
          (fun v => and_then (Union_Outdoors_Surface v) Aperture_suface_bc_objects)
    <*> with_default "is_operable" (ApertureObj_is_operable obj) false any
    <*> optional "indoor_shades" (ApertureObj_indoor_shades obj) (List_ Shade_parse_obj)
    <*> optional "outdoor_shades" (ApertureObj_outdoor_shades obj) (List_ Shade_parse_obj)
    <*> required "properties" (ApertureObj_properties obj)
          AperturePropertiesAbridged_parse_obj.

Definition Aperture_dict (a : Aperture) : ApertureObj :=
  {| ApertureObj_name := Some (Aperture_name a);
     ApertureObj_display_name := Some (Aperture_display_name a);
     ApertureObj_type := Some (Aperture_type a);
     ApertureObj_geometry := Some (Face3D_dict (Aperture_geometry a));
     ApertureObj_boundary_condition := Some (Aperture_boundary_condition a);
     ApertureObj_is_operable := Some (Aperture_is_operable a);
     ApertureObj_indoor_shades := option_map (map Shade_dict) (Aperture_indoor_shades a);
     ApertureObj_outdoor_shades := option_map (map Shade_dict) (Aperture_outdoor_shades a);
     ApertureObj_properties :=
       Some (AperturePropertiesAbridged_dict (Aperture_properties a)) |}.

(** *** Face *)

Record FacePropertiesAbridgedObj : Type := {
  FacePropertiesAbridgedObj_type : option string;
  FacePropertiesAbridgedObj_energy : option FaceEnergyPropertiesAbridged
}.

Record FacePropertiesAbridged : Type := {
  FacePropertiesAbridged_type : string;
  FacePropertiesAbridged_energy : option FaceEnergyPropertiesAbridged
}.

Definition FacePropertiesAbridged_parse_obj (obj : FacePropertiesAbridgedObj)
    : Result FacePropertiesAbridged :=
  Build_FacePropertiesAbridged
    <$> with_default "type" (FacePropertiesAbridgedObj_type obj)
          "FacePropertiesAbridged" (constr "FacePropertiesAbridged")
    <*> optional "energy" (FacePropertiesAbridgedObj_energy obj) any.

Definition FacePropertiesAbridged_dict (p : FacePropertiesAbridged)
    : FacePropertiesAbridgedObj :=
  {| FacePropertiesAbridgedObj_type := Some (FacePropertiesAbridged_type p);
     FacePropertiesAbridgedObj_energy := FacePropertiesAbridged_energy p |}.

Inductive FaceType : Type :=
| wall
| floor
| roof_ceiling
| air_wall.

Definition FaceType_value (t : FaceType) : string :=
  match t with
  | wall => "Wall"
  | floor => "Floor"
  | roof_ceiling => "RoofCeiling"
  | air_wall => "AirWall"
  end.

(** A field of type [FaceType] takes the value of one of the members. *)
Definition FaceType_validate (s : string) : Result FaceType :=
  if (s =? "Wall")%string then Ok wall
  else if (s =? "Floor")%string then Ok floor
  else if (s =? "RoofCeiling")%string then Ok roof_ceiling
  else if (s =? "AirWall")%string then Ok air_wall
  else ValidationError [([], EnumError)].

Record FaceObj : Type := {
  FaceObj_name : option string;
  FaceObj_display_name : option string;
  FaceObj_type : option string;
  FaceObj_geometry : option Face3DObj;
  FaceObj_face_type : option string;
  FaceObj_boundary_condition : option BoundaryCondition;
  FaceObj_apertures : option (list ApertureObj);
  FaceObj_doors : option (list DoorObj);
  FaceObj_indoor_shades : option (list ShadeObj);
  FaceObj_outdoor_shades : option (list ShadeObj);
  FaceObj_properties : option FacePropertiesAbridgedObj
}.

Record Face : Type := {
  Face_name : string;
  Face_display_name : string;
  Face_type : string;
  Face_geometry : Face3D;
  Face_face_type : FaceType;
  Face_boundary_condition : BoundaryCondition;
  Face_apertures : option (list Aperture);
  Face_doors : option (list Door);
  Face_indoor_shades : option (list Shade);
  Face_outdoor_shades : option (list Shade);
  Face_properties : FacePropertiesAbridged
}.

Definition Face_suface_bc_objects (v : BoundaryCondition) : Outcome BoundaryCondition :=
  (if (bc_type v =? "Surface")%string
   then assert (length (boundary_condition_objects v) =? 2)
          "Face Surface boundary condition must have 2 boundary_condition_objects."
   else Return tt) ;;
  Return v.

Definition Face_init (name : string) (display_name : option string) : _ :=
  Build_Face name (NamedBaseModel_display_name name display_name).

Definition Face_parse_obj (obj : FaceObj) : Result Face :=
  Face_init
    <$> required "name" (FaceObj_name obj) NamedBaseModel_name
    <*> optional "display_name" (FaceObj_display_name obj) any
    <*> with_default "type" (FaceObj_type obj) "Face" (constr "Face")
    <*> required "geometry" (FaceObj_geometry obj) Face3D_parse_obj
    <*> required "face_type" (FaceObj_face_type obj) FaceType_validate
    <*> required "boundary_condition" (FaceObj_boundary_condition obj)
          (fun v => and_then (Union_Ground_Outdoors_Adiabatic_Surface v)
                      Face_suface_bc_objects)
    <*> optional "apertures" (FaceObj_apertures obj) (List_ Aperture_parse_obj)
    <*> optional "doors" (FaceObj_doors obj) (List_ Door_parse_obj)
    <*> optional "indoor_shades" (FaceObj_indoor_shades obj) (List_ Shade_parse_obj)
    <*> optional "outdoor_shades" (FaceObj_outdoor_shades obj) (List_ Shade_parse_obj)
    <*> required "properties" (FaceObj_properties obj) FacePropertiesAbridged_parse_obj.

Definition Face_dict (f : Face) : FaceObj :=
  {| FaceObj_name := Some (Face_name f);
     FaceObj_display_name := Some (Face_display_name f);
     FaceObj_type := Some (Face_type f);
     FaceObj_geometry := Some (Face3D_dict (Face_geometry f));
     FaceObj_face_type := Some (FaceType_value (Face_face_type f));
     FaceObj_boundary_condition := Some (Face_boundary_condition f);
     FaceObj_apertures := option_map (map Aperture_dict) (Face_apertures f);
     FaceObj_doors := option_map (map Door_dict) (Face_doors f);
     FaceObj_indoor_shades := option_map (map Shade_dict) (Face_indoor_shades f);
     FaceObj_outdoor_shades := option_map (map Shade_dict) (Face_outdoor_shades f);
     FaceObj_properties := Some (FacePropertiesAbridged_dict (Face_properties f)) |}.

(** *** Room *)

Record RoomPropertiesAbridgedObj : Type := {
  RoomPropertiesAbridgedObj_type : option string;
  RoomPropertiesAbridgedObj_energy : option RoomEnergyPropertiesAbridged
}.

Record RoomPropertiesAbridged : Type := {
  RoomPropertiesAbridged_type : string;
  RoomPropertiesAbridged_energy : RoomEnergyPropertiesAbridged
}.

Definition RoomPropertiesAbridged_parse_obj (obj : RoomPropertiesAbridgedObj)
    : Result RoomPropertiesAbridged :=
  Build_RoomPropertiesAbridged
    <$> with_default "type" (RoomPropertiesAbridgedObj_type obj)
          "RoomPropertiesAbridged" (constr "RoomPropertiesAbridged")
    <*> required "energy" (RoomPropertiesAbridgedObj_energy obj) any.

Definition RoomPropertiesAbridged_dict (p : RoomPropertiesAbridged)
    : RoomPropertiesAbridgedObj :=
  {| RoomPropertiesAbridgedObj_type := Some (RoomPropertiesAbridged_type p);
     RoomPropertiesAbridgedObj_energy := Some (RoomPropertiesAbridged_energy p) |}.

Record RoomObj : Type := {
  RoomObj_name : option string;
  RoomObj_display_name : option string;
  RoomObj_type : option string;
  RoomObj_faces : option (list FaceObj);
  RoomObj_indoor_shades : option (list ShadeObj);
  RoomObj_outdoor_shades : option (list ShadeObj);
  RoomObj_properties : option RoomPropertiesAbridgedObj
}.

Record Room : Type := {
  Room_name : string;
  Room_display_name : string;
  Room_type : string;
  Room_faces : list Face;
  Room_indoor_shades : option (list Shade);
  Room_outdoor_shades : option (list Shade);
  Room_properties : RoomPropertiesAbridged
}.

Definition Room_init (name : string) (display_name : option string) : _ :=
  Build_Room name (NamedBaseModel_display_name name display_name).

Definition Room_parse_obj (obj : RoomObj) : Result Room :=
  Room_init
    <$> required "name" (RoomObj_name obj) NamedBaseModel_name
    <*> optional "display_name" (RoomObj_display_name obj) any
    <*> with_default "type" (RoomObj_type obj) "Room" (constr "Room")
    <*> required "faces" (RoomObj_faces obj) (conlist (Some 4) None Face_parse_obj)
    <*> optional "indoor_shades" (RoomObj_indoor_shades obj) (List_ Shade_parse_obj)
    <*> optional "outdoor_shades" (RoomObj_outdoor_shades obj) (List_ Shade_parse_obj)
    <*> required "properties" (RoomObj_properties obj) RoomPropertiesAbridged_parse_obj.

Definition Room_dict (r : Room) : RoomObj :=
  {| RoomObj_name := Some (Room_name r);
     RoomObj_display_name := Some (Room_display_name r);
     RoomObj_type := Some (Room_type r);
     RoomObj_faces := Some (map Face_dict (Room_faces r));
     RoomObj_indoor_shades := option_map (map Shade_dict) (Room_indoor_shades r);
     RoomObj_outdoor_shades := option_map (map Shade_dict) (Room_outdoor_shades r);
     RoomObj_properties := Some (RoomPropertiesAbridged_dict (Room_properties r)) |}.

(** *** Model *)

Record ModelPropertiesObj : Type := {
  ModelPropertiesObj_type : option string;
  ModelPropertiesObj_energy : option ModelEnergyProperties
}.

Record ModelProperties : Type := {
  ModelProperties_type : string;
  ModelProperties_energy : ModelEnergyProperties
}.

Definition ModelProperties_parse_obj (obj : ModelPropertiesObj) : Result ModelProperties :=
  Build_ModelProperties
    <$> with_default "type" (ModelPropertiesObj_type obj)
          "ModelProperties" (constr "ModelProperties")
    <*> required "energy" (ModelPropertiesObj_energy obj) any.

Definition ModelProperties_dict (p : ModelProperties) : ModelPropertiesObj :=
  {| ModelPropertiesObj_type := Some (ModelProperties_type p);
     ModelPropertiesObj_energy := Some (ModelProperties_energy p) |}.

Record ModelObj : Type := {
  ModelObj_name : option string;
  ModelObj_display_name : option string;
  ModelObj_type : option string;
  ModelObj_rooms : option (list RoomObj);
  ModelObj_orphaned_faces : option (list FaceObj);
  ModelObj_orphaned_shades : option (list ShadeObj);
  ModelObj_orphaned_apertures : option (list ApertureObj);
  ModelObj_orphaned_doors : option (list DoorObj);
  ModelObj_north_angle : option float;
  ModelObj_properties : option ModelPropertiesObj
}.

Record Model : Type := {
  Model_name : string;
  Model_display_name : string;
  Model_type : string;
  Model_rooms : option (list Room);
  Model_orphaned_faces : option (list Face);
  Model_orphaned_shades : option (list Shade);
  Model_orphaned_apertures : option (list Aperture);
  Model_orphaned_doors : option (list Door);
  Model_north_angle : float;
  Model_properties : ModelProperties
}.

Definition Model_init (name : string) (display_name : option string) : _ :=
  Build_Model name (NamedBaseModel_display_name name display_name).

Definition Model_parse_obj (obj : ModelObj) : Result Model :=
  Model_init
    <$> required "name" (ModelObj_name obj) NamedBaseModel_name
    <*> optional "display_name" (ModelObj_display_name obj) any
    <*> with_default "type" (ModelObj_type obj) "Model" (constr "Model")
    <*> optional "rooms" (ModelObj_rooms obj) (List_ Room_parse_obj)
    <*> optional "orphaned_faces" (ModelObj_orphaned_faces obj) (List_ Face_parse_obj)
    <*> optional "orphaned_shades" (ModelObj_orphaned_shades obj) (List_ Shade_parse_obj)
    <*> optional "orphaned_apertures" (ModelObj_orphaned_apertures obj)
          (List_ Aperture_parse_obj)
    <*> optional "orphaned_doors" (ModelObj_orphaned_doors obj) (List_ Door_parse_obj)
    <*> with_default "north_angle" (ModelObj_north_angle obj) (float_of_int 0)
          (number_size_validator 0 360)
    <*> required "properties" (ModelObj_properties obj) ModelProperties_parse_obj.


(** ** The names of a Model *)

(** The names of the entities of a tree, in the order of a walk through it:
    the rooms with their faces, apertures, doors and shades, then the four
    lists of orphans. *)
Definition opt_name (v : option string) : list string :=
  match v with
  | Some n => [n]
  | None => []
  end.

Definition opt_list {A : Type} (v : option (list A)) : list A :=
  match v with
  | Some l => l
  | None => []
  end.

Definition Shade_names (obj : ShadeObj) : list string :=
  opt_name (ShadeObj_name obj).

Definition Door_names (obj : DoorObj) : list string :=
  opt_name (DoorObj_name obj).

Definition Aperture_names (obj : ApertureObj) : list string :=
  opt_name (ApertureObj_name obj)
  ++ flat_map Shade_names (opt_list (ApertureObj_indoor_shades obj))
  ++ flat_map Shade_names (opt_list (ApertureObj_outdoor_shades obj)).

Definition Face_names (obj : FaceObj) : list string :=
  opt_name (FaceObj_name obj)
  ++ flat_map Aperture_names (opt_list (FaceObj_apertures obj))
  ++ flat_map Door_names (opt_list (FaceObj_doors obj))
  ++ flat_map Shade_names (opt_list (FaceObj_indoor_shades obj))
  ++ flat_map Shade_names (opt_list (FaceObj_outdoor_shades obj)).

Definition Room_names (obj : RoomObj) : list string :=
  opt_name (RoomObj_name obj)
  ++ flat_map Face_names (opt_list (RoomObj_faces obj))
  ++ flat_map Shade_names (opt_list (RoomObj_indoor_shades obj))
  ++ flat_map Shade_names (opt_list (RoomObj_outdoor_shades obj)).

Definition Model_names (obj : ModelObj) : list string :=
  flat_map Room_names (opt_list (ModelObj_rooms obj))
  ++ flat_map Face_names (opt_list (ModelObj_orphaned_faces obj))
  ++ flat_map Shade_names (opt_list (ModelObj_orphaned_shades obj))
  ++ flat_map Aperture_names (opt_list (ModelObj_orphaned_apertures obj))
  ++ flat_map Door_names (opt_list (ModelObj_orphaned_doors obj)).

(** Renaming the entities of a tree: [f] is applied to every name. *)
Section Rename.

Variable f : string -> string.

Definition rename_list {A : Type} (g : A -> A) (v : option (list A)) : option (list A) :=
  option_map (map g) v.

Definition Shade_rename (obj : ShadeObj) : ShadeObj :=
  {| ShadeObj_name := option_map f (ShadeObj_name obj);
     ShadeObj_display_name := ShadeObj_display_name obj;
     ShadeObj_type := ShadeObj_type obj;
     ShadeObj_geometry := ShadeObj_geometry obj;
     ShadeObj_properties := ShadeObj_properties obj |}.

Definition Door_rename (obj : DoorObj) : DoorObj :=
  {| DoorObj_name := option_map f (DoorObj_name obj);
     DoorObj_display_name := DoorObj_display_name obj;
     DoorObj_type := DoorObj_type obj;
     DoorObj_geometry := DoorObj_geometry obj;
     DoorObj_boundary_condition := DoorObj_boundary_condition obj;
     DoorObj_is_glass := DoorObj_is_glass obj;
     DoorObj_properties := DoorObj_properties obj |}.

Definition Aperture_rename (obj : ApertureObj) : ApertureObj :=
  {| ApertureObj_name := option_map f (ApertureObj_name obj);
     ApertureObj_display_name := ApertureObj_display_name obj;
     ApertureObj_type := ApertureObj_type obj;
     ApertureObj_geometry := ApertureObj_geometry obj;
     ApertureObj_boundary_condition := ApertureObj_boundary_condition obj;
     ApertureObj_is_operable := ApertureObj_is_operable obj;
     ApertureObj_indoor_shades := rename_list Shade_rename (ApertureObj_indoor_shades obj);
     ApertureObj_outdoor_shades :=
       rename_list Shade_rename (ApertureObj_outdoor_shades obj);
     ApertureObj_properties := ApertureObj_properties obj |}.

Definition Face_rename (obj : FaceObj) : FaceObj :=
  {| FaceObj_name := option_map f (FaceObj_name obj);
     FaceObj_display_name := FaceObj_display_name obj;
     FaceObj_type := FaceObj_type obj;
     FaceObj_geometry := FaceObj_geometry obj;
     FaceObj_face_type := FaceObj_face_type obj;
     FaceObj_boundary_condition := FaceObj_boundary_condition obj;
     FaceObj_apertures := rename_list Aperture_rename (FaceObj_apertures obj);
     FaceObj_doors := rename_list Door_rename (FaceObj_doors obj);
     FaceObj_indoor_shades := rename_list Shade_rename (FaceObj_indoor_shades obj);
     FaceObj_outdoor_shades := rename_list Shade_rename (FaceObj_outdoor_shades obj);
     FaceObj_properties := FaceObj_properties obj |}.

Definition Room_rename (obj : RoomObj) : RoomObj :=
  {| RoomObj_name := option_map f (RoomObj_name obj);
     RoomObj_display_name := RoomObj_display_name obj;
     RoomObj_type := RoomObj_type obj;
     RoomObj_faces := rename_list Face_rename (RoomObj_faces obj);
     RoomObj_indoor_shades := rename_list Shade_rename (RoomObj_indoor_shades obj);
     RoomObj_outdoor_shades := rename_list Shade_rename (RoomObj_outdoor_shades obj);
     RoomObj_properties := RoomObj_properties obj |}.

Definition Model_rename (obj : ModelObj) : ModelObj :=
  {| ModelObj_name := option_map f (ModelObj_name obj);
     ModelObj_display_name := ModelObj_display_name obj;
     ModelObj_type := ModelObj_type obj;
     ModelObj_rooms := rename_list Room_rename (ModelObj_rooms obj);
     ModelObj_orphaned_faces := rename_list Face_rename (ModelObj_orphaned_faces obj);
     ModelObj_orphaned_shades := rename_list Shade_rename (ModelObj_orphaned_shades obj);
     ModelObj_orphaned_apertures :=
       rename_list Aperture_rename (ModelObj_orphaned_apertures obj);
     ModelObj_orphaned_doors := rename_list Door_rename (ModelObj_orphaned_doors obj);
     ModelObj_north_angle := ModelObj_north_angle obj;
     ModelObj_properties := ModelObj_properties obj |}.

End Rename.

(** ** The serialised form of accepted data *)

(** What the data of an object looks like once the defaults of the absent
    keys are written out: the [type] of every class, [display_name],
    [is_glass], [is_operable] and [north_angle]. *)
Definition or_default {A : Type} (v : option A) (d : A) : option A :=
  match v with
  | Some a => Some a
  | None => Some d
  end.

Definition display_name_or (display_name name : option string) : option string :=
  match display_name with
  | Some d => Some d
  | None => name
  end.

Definition Plane_with_defaults (obj : PlaneObj) : PlaneObj :=
  {| PlaneObj_type := or_default (PlaneObj_type obj) "Plane";
     PlaneObj_n := PlaneObj_n obj;
     PlaneObj_o := PlaneObj_o obj;
     PlaneObj_x := PlaneObj_x obj |}.

Definition Face3D_with_defaults (obj : Face3DObj) : Face3DObj :=
  {| Face3DObj_type := or_default (Face3DObj_type obj) "Face3D";
     Face3DObj_boundary := Face3DObj_boundary obj;
     Face3DObj_holes := Face3DObj_holes obj;
     Face3DObj_plane := option_map Plane_with_defaults (Face3DObj_plane obj) |}.

Definition ShadePropertiesAbridged_with_defaults (obj : ShadePropertiesAbridgedObj)
    : ShadePropertiesAbridgedObj :=
  {| ShadePropertiesAbridgedObj_type :=
       or_default (ShadePropertiesAbridgedObj_type obj) "ShadePropertiesAbridged";
     ShadePropertiesAbridgedObj_energy := ShadePropertiesAbridgedObj_energy obj |}.

Definition DoorPropertiesAbridged_with_defaults (obj : DoorPropertiesAbridgedObj)
    : DoorPropertiesAbridgedObj :=
  {| DoorPropertiesAbridgedObj_type :=
       or_default (DoorPropertiesAbridgedObj_type obj) "DoorPropertiesAbridged";
     DoorPropertiesAbridgedObj_energy := DoorPropertiesAbridgedObj_energy obj |}.

Definition AperturePropertiesAbridged_with_defaults (obj : AperturePropertiesAbridgedObj)
    : AperturePropertiesAbridgedObj :=
  {| AperturePropertiesAbridgedObj_type :=
       or_default (AperturePropertiesAbridgedObj_type obj) "AperturePropertiesAbridged";
     AperturePropertiesAbridgedObj_energy := AperturePropertiesAbridgedObj_energy obj |}.

Definition FacePropertiesAbridged_with_defaults (obj : FacePropertiesAbridgedObj)
    : FacePropertiesAbridgedObj :=
  {| FacePropertiesAbridgedObj_type :=
       or_default (FacePropertiesAbridgedObj_type obj) "FacePropertiesAbridged";
     FacePropertiesAbridgedObj_energy := FacePropertiesAbridgedObj_energy obj |}.

Definition RoomPropertiesAbridged_with_defaults (obj : RoomPropertiesAbridgedObj)
    : RoomPropertiesAbridgedObj :=
  {| RoomPropertiesAbridgedObj_type :=
       or_default (RoomPropertiesAbridgedObj_type obj) "RoomPropertiesAbridged";
     RoomPropertiesAbridgedObj_energy := RoomPropertiesAbridgedObj_energy obj |}.

Definition ModelProperties_with_defaults (obj : ModelPropertiesObj) : ModelPropertiesObj :=
  {| ModelPropertiesObj_type := or_default (ModelPropertiesObj_type obj) "ModelProperties";
     ModelPropertiesObj_energy := ModelPropertiesObj_energy obj |}.

Definition Shade_with_defaults (obj : ShadeObj) : ShadeObj :=
  {| ShadeObj_name := ShadeObj_name obj;
     ShadeObj_display_name :=
       display_name_or (ShadeObj_display_name obj) (ShadeObj_name obj);
     ShadeObj_type := or_default (ShadeObj_type obj) "Shade";
     ShadeObj_geometry := option_map Face3D_with_defaults (ShadeObj_geometry obj);
     ShadeObj_properties :=
       option_map ShadePropertiesAbridged_with_defaults (ShadeObj_properties obj) |}.

Definition Door_with_defaults (obj : DoorObj) : DoorObj :=
  {| DoorObj_name := DoorObj_name obj;
     DoorObj_display_name := display_name_or (DoorObj_display_name obj) (DoorObj_name obj);
     DoorObj_type := or_default (DoorObj_type obj) "Door";
     DoorObj_geometry := option_map Face3D_with_defaults (DoorObj_geometry obj);
     DoorObj_boundary_condition := DoorObj_boundary_condition obj;
     DoorObj_is_glass := or_default (DoorObj_is_glass obj) false;
     DoorObj_properties :=
       option_map DoorPropertiesAbridged_with_defaults (DoorObj_properties obj) |}.

Definition Aperture_with_defaults (obj : ApertureObj) : ApertureObj :=
  {| ApertureObj_name := ApertureObj_name obj;
     ApertureObj_display_name :=
       display_name_or (ApertureObj_display_name obj) (ApertureObj_name obj);
     ApertureObj_type := or_default (ApertureObj_type obj) "Aperture";
     ApertureObj_geometry := option_map Face3D_with_defaults (ApertureObj_geometry obj);
     ApertureObj_boundary_condition := ApertureObj_boundary_condition obj;
     ApertureObj_is_operable := or_default (ApertureObj_is_operable obj) false;
     ApertureObj_indoor_shades :=
       option_map (map Shade_with_defaults) (ApertureObj_indoor_shades obj);
     ApertureObj_outdoor_shades :=
       option_map (map Shade_with_defaults) (ApertureObj_outdoor_shades obj);
     ApertureObj_properties :=
       option_map AperturePropertiesAbridged_with_defaults (ApertureObj_properties obj) |}.

Definition Face_with_defaults (obj : FaceObj) : FaceObj :=
  {| FaceObj_name := FaceObj_name obj;
     FaceObj_display_name := display_name_or (FaceObj_display_name obj) (FaceObj_name obj);
     FaceObj_type := or_default (FaceObj_type obj) "Face";
     FaceObj_geometry := option_map Face3D_with_defaults (FaceObj_geometry obj);
     FaceObj_face_type := FaceObj_face_type obj;
     FaceObj_boundary_condition := FaceObj_boundary_condition obj;
     FaceObj_apertures := option_map (map Aperture_with_defaults) (FaceObj_apertures obj);
     FaceObj_doors := option_map (map Door_with_defaults) (FaceObj_doors obj);
     FaceObj_indoor_shades :=
       option_map (map Shade_with_defaults) (FaceObj_indoor_shades obj);
     FaceObj_outdoor_shades :=
       option_map (map Shade_with_defaults) (FaceObj_outdoor_shades obj);
     FaceObj_properties :=
       option_map FacePropertiesAbridged_with_defaults (FaceObj_properties obj) |}.

Definition Room_with_defaults (obj : RoomObj) : RoomObj :=
  {| RoomObj_name := RoomObj_name obj;
     RoomObj_display_name := display_name_or (RoomObj_display_name obj) (RoomObj_name obj);
     RoomObj_type := or_default (RoomObj_type obj) "Room";
     RoomObj_faces := option_map (map Face_with_defaults) (RoomObj_faces obj);
     RoomObj_indoor_shades :=
       option_map (map Shade_with_defaults) (RoomObj_indoor_shades obj);
     RoomObj_outdoor_shades :=
       option_map (map Shade_with_defaults) (RoomObj_outdoor_shades obj);
     RoomObj_properties :=
       option_map RoomPropertiesAbridged_with_defaults (RoomObj_properties obj) |}.


(** ** Auxiliary definitions *)

(** The errors reported under one key of a model, with the key taken off
    their locations. *)
Definition errors_at (k : string) (es : list ErrorWrapper) : list ErrorWrapper :=
  flat_map (fun e =>
    match fst e with
    | Key k' :: l => if (k' =? k)%string then [(l, snd e)] else []
    | _ => []
    end) es.

(** Two validations with the same verdict: the same errors, or both none. *)
Definition same_verdict {A B : Type} (r : Result A) (r' : Result B) : Prop :=
  errors_of r = errors_of r' /\ is_ok r = is_ok r'.

(** On accepted data, the constructed value seen through [g] is the data
    seen through [h]. *)
Definition agrees {A B C : Type} (validate : A -> Result B) (g : B -> C) (h : A -> C)
    : Prop :=
  forall x y, validate x = Ok y -> g y = h x.

(** The validator hands back the data it accepts. *)
Definition keeps {A : Type} (validate : A -> Result A) : Prop :=
  forall x y, validate x = Ok y -> y = x.

(** A point with its 3 coordinates. *)
Definition has_xyz (pt : list float) : bool := length pt =? 3.

(** All the points of the data of a Face3D: those of the boundary and
    those of every hole. *)
Definition Face3DObj_points (obj : Face3DObj) : list (list float) :=
  opt_list (Face3DObj_boundary obj) ++ concat (opt_list (Face3DObj_holes obj)).

Definition Face3DObj_set_holes (obj : Face3DObj)
    (holes : option (list (list (list float)))) : Face3DObj :=
  {| Face3DObj_type := Face3DObj_type obj;
     Face3DObj_boundary := Face3DObj_boundary obj;
     Face3DObj_holes := holes;
     Face3DObj_plane := Face3DObj_plane obj |}.

Definition Face3D_set_holes (g : Face3D) (holes : option (list (list (list float))))
    : Face3D :=
  {| Face3D_type := Face3D_type g;
     Face3D_boundary := Face3D_boundary g;
     Face3D_holes := holes;
     Face3D_plane := Face3D_plane g |}.

(** The fields of a Room other than [faces] are accepted ([display_name] is
    free text and always is). *)
Definition Room_other_fields_ok (obj : RoomObj) : bool :=
  is_ok (required "name" (RoomObj_name obj) NamedBaseModel_name)
  && is_ok (with_default "type" (RoomObj_type obj) "Room" (constr "Room"))
  && is_ok (optional "indoor_shades" (RoomObj_indoor_shades obj) (List_ Shade_parse_obj))
  && is_ok (optional "outdoor_shades" (RoomObj_outdoor_shades obj) (List_ Shade_parse_obj))
  && is_ok (required "properties" (RoomObj_properties obj)
              RoomPropertiesAbridged_parse_obj).

(** The fields of a Model other than [north_angle] are accepted
    ([display_name] always is). *)
Definition Model_other_fields_ok (obj : ModelObj) : bool :=
  is_ok (required "name" (ModelObj_name obj) NamedBaseModel_name)
  && is_ok (with_default "type" (ModelObj_type obj) "Model" (constr "Model"))
  && is_ok (optional "rooms" (ModelObj_rooms obj) (List_ Room_parse_obj))
  && is_ok (optional "orphaned_faces" (ModelObj_orphaned_faces obj) (List_ Face_parse_obj))
  && is_ok (optional "orphaned_shades" (ModelObj_orphaned_shades obj)
              (List_ Shade_parse_obj))
  && is_ok (optional "orphaned_apertures" (ModelObj_orphaned_apertures obj)
              (List_ Aperture_parse_obj))
  && is_ok (optional "orphaned_doors" (ModelObj_orphaned_doors obj) (List_ Door_parse_obj))
  && is_ok (required "properties" (ModelObj_properties obj) ModelProperties_parse_obj).

(** The errors of a model under the key [k] are those of the nested value
    validated as [r]. *)
Definition reports_nested {B : Type} (errs : list ErrorWrapper) (k : string)
    (r : Result B) : Prop :=
  forall l e, In (Key k :: l, e) errs <-> In (l, e) (errors_of r).

(** The errors of a model under the key [k] and the index [i] are those of
    the [i]-th item of the list [v]. *)
Definition reports_items {A B : Type} (errs : list ErrorWrapper) (k : string)
    (item : A -> Result B) (v : list A) : Prop :=
  forall i l e,
    In (Key k :: Index i :: l, e) errs <->
    exists a, nth_error v i = Some a /\ In (l, e) (errors_of (item a)).

(** The list [v'] of a constructed object against the list [v] of the data:
    absent together, or item by item the object constructed from the data. *)
Definition constructed_from {A B : Type} (parse : A -> Result B)
    (v : option (list A)) (v' : option (list B)) : Prop :=
  match v, v' with
  | None, None => True
  | Some l, Some l' => Forall2 (fun a b => parse a = Ok b) l l'
  | _, _ => False
  end.

(** A value that was constructed is constructed again from its serialised
    form [g]. *)
Definition stable {A B : Type} (validate : A -> Result B) (g : B -> A) : Prop :=
  forall a b, validate a = Ok b -> validate (g b) = Ok b.

(** The [type] of the data of a class is absent, or matches the pattern of
    the class. *)
Definition type_matches (lit : string) (t : option string) : Prop :=
  match t with
  | None => True
  | Some s => s = lit \/ s = lit ++ newline
  end.

(** The only error under [type] is that of the pattern of the class, and it
    is there exactly when the [type] given does not match. *)
Definition type_errors (errs : list ErrorWrapper) (lit : string) (t : option string)
    : Prop :=
  forall l e,
    In (Key "type" :: l, e) errs <->
    l = [] /\ e = StrRegexError ("^" ++ lit ++ "$") /\ ~ type_matches lit t.

(** The values of the members of [FaceType]. *)
Definition FaceType_values : list string := ["Wall"; "Floor"; "RoofCeiling"; "AirWall"].

(** ** Sample data *)

(** An instance of the constraint on names: they are not empty and have at
    most 100 characters. *)
Definition sample_valid_name (s : string) : bool :=
  negb (s =? "")%string && (String.length s <=? 100).

(** Every valid name becomes "a". *)
Definition collapse_names (s : string) : string :=
  if sample_valid_name s then "a" else s.

Definition point (x y z : Z) : list float :=
  [float_of_int x; float_of_int y; float_of_int z].

Definition triangle : list (list float) := [point 0 0 0; point 1 0 0; point 0 1 0].

Definition geometry_of (boundary : list (list float)) : Face3DObj :=
  {| Face3DObj_type := None;
     Face3DObj_boundary := Some boundary;
     Face3DObj_holes := None;
     Face3DObj_plane := None |}.

Definition sample_shade (name : string) : ShadeObj :=
  {| ShadeObj_name := Some name;
     ShadeObj_display_name := None;
     ShadeObj_type := None;
     ShadeObj_geometry := Some (geometry_of triangle);
     ShadeObj_properties :=
       Some {| ShadePropertiesAbridgedObj_type := None;
               ShadePropertiesAbridgedObj_energy := None |} |}.

Definition sample_door (name : string) : DoorObj :=
  {| DoorObj_name := Some name;
     DoorObj_display_name := None;
     DoorObj_type := None;
     DoorObj_geometry := Some (geometry_of triangle);
     DoorObj_boundary_condition := Some Outdoors;
     DoorObj_is_glass := None;
     DoorObj_properties :=
       Some {| DoorPropertiesAbridgedObj_type := None;
               DoorPropertiesAbridgedObj_energy := None |} |}.

Definition sample_aperture (name : string) (bc : BoundaryCondition) : ApertureObj :=
  {| ApertureObj_name := Some name;
     ApertureObj_display_name := None;
     ApertureObj_type := None;
     ApertureObj_geometry := Some (geometry_of triangle);
     ApertureObj_boundary_condition := Some bc;
     ApertureObj_is_operable := None;
     ApertureObj_indoor_shades := None;
     ApertureObj_outdoor_shades := None;
     ApertureObj_properties :=
       Some {| AperturePropertiesAbridgedObj_type := None;
               AperturePropertiesAbridgedObj_energy := None |} |}.

Definition sample_face (name : string) (bc : BoundaryCondition) : FaceObj :=
  {| FaceObj_name := Some name;
     FaceObj_display_name := None;
     FaceObj_type := None;
     FaceObj_geometry := Some (geometry_of triangle);
     FaceObj_face_type := Some "Wall";
     FaceObj_boundary_condition := Some bc;
     FaceObj_apertures := None;
     FaceObj_doors := None;
     FaceObj_indoor_shades := None;
     FaceObj_outdoor_shades := None;
     FaceObj_properties :=
       Some {| FacePropertiesAbridgedObj_type := None;
               FacePropertiesAbridgedObj_energy := None |} |}.

(** A Room of 4 triangular faces, each with the boundary condition
    [Outdoors], without apertures, doors or shades. *)
Definition tetrahedron_faces : list FaceObj :=
  [sample_face "f1" Outdoors; sample_face "f2" Outdoors;
   sample_face "f3" Outdoors; sample_face "f4" Outdoors].

Definition tetrahedron (energy : RoomEnergyPropertiesAbridged) : RoomObj :=
  {| RoomObj_name := Some "room";
     RoomObj_display_name := None;
     RoomObj_type := None;
     RoomObj_faces := Some tetrahedron_faces;
     RoomObj_indoor_shades := None;
     RoomObj_outdoor_shades := None;
     RoomObj_properties :=
       Some {| RoomPropertiesAbridgedObj_type := None;
               RoomPropertiesAbridgedObj_energy := Some energy |} |}.

(** A Model without rooms, with the orphans given. *)
Definition sample_model (energy : ModelEnergyProperties)
    (faces : option (list FaceObj)) (shades : option (list ShadeObj))
    (north_angle : option float) : ModelObj :=
  {| ModelObj_name := Some "model";
     ModelObj_display_name := None;
     ModelObj_type := None;
     ModelObj_rooms := None;
     ModelObj_orphaned_faces := faces;
     ModelObj_orphaned_shades := shades;
     ModelObj_orphaned_apertures := None;
     ModelObj_orphaned_doors := None;
     ModelObj_north_angle := north_angle;
     ModelObj_properties :=
       Some {| ModelPropertiesObj_type := None;
               ModelPropertiesObj_energy := Some energy |} |}.

(** A Room whose third face has an Aperture with a Surface boundary
    condition that links 2 objects. *)
Definition sample_face_with (name : string) (apertures : list ApertureObj) : FaceObj :=
  {| FaceObj_name := Some name;
     FaceObj_display_name := None;
     FaceObj_type := None;
     FaceObj_geometry := Some (geometry_of triangle);
     FaceObj_face_type := Some "Wall";
     FaceObj_boundary_condition := Some Outdoors;
     FaceObj_apertures := Some apertures;
     FaceObj_doors := None;
     FaceObj_indoor_shades := None;
     FaceObj_outdoor_shades := None;
     FaceObj_properties :=
       Some {| FacePropertiesAbridgedObj_type := None;
               FacePropertiesAbridgedObj_energy := None |} |}.

Definition room_of (energy : RoomEnergyPropertiesAbridged) (faces : list FaceObj)
    : RoomObj :=
  {| RoomObj_name := Some "room";
     RoomObj_display_name := None;
     RoomObj_type := None;
     RoomObj_faces := Some faces;
     RoomObj_indoor_shades := None;
     RoomObj_outdoor_shades := None;
     RoomObj_properties :=
       Some {| RoomPropertiesAbridgedObj_type := None;
               RoomPropertiesAbridgedObj_energy := Some energy |} |}.

Definition plane_of (n o : list float) (x : option (list float)) : PlaneObj :=
  {| PlaneObj_type := None;
     PlaneObj_n := Some n;
     PlaneObj_o := Some o;
     PlaneObj_x := x |}.

Definition shade_of (name : string) (boundary : list (list float)) : ShadeObj :=
  {| ShadeObj_name := Some name;
     ShadeObj_display_name := None;
     ShadeObj_type := None;
     ShadeObj_geometry := Some (geometry_of boundary);
     ShadeObj_properties :=
       Some {| ShadePropertiesAbridgedObj_type := None;
               ShadePropertiesAbridgedObj_energy := None |} |}.

Definition model_of (energy : ModelEnergyProperties) (rooms : list RoomObj) : ModelObj :=
  {| ModelObj_name := Some "model";
     ModelObj_display_name := None;
     ModelObj_type := None;
     ModelObj_rooms := Some rooms;
     ModelObj_orphaned_faces := None;
     ModelObj_orphaned_shades := None;
     ModelObj_orphaned_apertures := None;
     ModelObj_orphaned_doors := None;
     ModelObj_north_angle := None;
     ModelObj_properties :=
       Some {| ModelPropertiesObj_type := None;
               ModelPropertiesObj_energy := Some energy |} |}.

(** ** Properties of the validation combinators *)

Lemma errors_of_fmap (A B : Type) (g : A -> B) (r : Result A) :
  errors_of (g <$> r) = errors_of r.
Proof. destruct r; reflexivity. Qed.

Lemma errors_of_ap (A B : Type) (rf : Result (A -> B)) (ra : Result A) :
  errors_of (rf <*> ra) = (errors_of rf ++ errors_of ra)%list.
Proof.
  destruct rf, ra; simpl; try reflexivity.
  symmetry; apply app_nil_r.
Qed.

Lemma errors_of_at_loc (A : Type) (i : LocItem) (r : Result A) :
  errors_of (at_loc i r) = map (fun e => (i :: fst e, snd e)) (errors_of r).
Proof. destruct r; reflexivity. Qed.

Lemma is_ok_fmap (A B : Type) (g : A -> B) (r : Result A) :
  is_ok (g <$> r) = is_ok r.
Proof. destruct r; reflexivity. Qed.

Lemma is_ok_ap (A B : Type) (rf : Result (A -> B)) (ra : Result A) :
  is_ok (rf <*> ra) = is_ok rf && is_ok ra.
Proof. destruct rf, ra; reflexivity. Qed.

Lemma is_ok_at_loc (A : Type) (i : LocItem) (r : Result A) :
  is_ok (at_loc i r) = is_ok r.
Proof. destruct r; reflexivity. Qed.

Lemma In_errors_not_ok (A : Type) (r : Result A) (e : ErrorWrapper) :
  In e (errors_of r) -> is_ok r = false.
Proof. destruct r; simpl; [intros [] | reflexivity]. Qed.

Lemma is_ok_true_Ok (A : Type) (r : Result A) :
  is_ok r = true -> exists a, r = Ok a.
Proof. destruct r; [eauto | discriminate]. Qed.

(** Every error of a field is located under the key of the field. *)
Lemma In_at_loc (A : Type) (i : LocItem) (r : Result A) (l : Loc) (e : ErrorMsg) :
  In (l, e) (errors_of (at_loc i r)) <->
  exists l', l = i :: l' /\ In (l', e) (errors_of r).
Proof.
  rewrite errors_of_at_loc, in_map_iff. split.
  - intros [[l' e'] [Heq Hin]]. inversion Heq; subst. eauto.
  - intros [l' [-> Hin]]. exists (l', e). auto.
Qed.

Lemma In_required_key (A B : Type) (k : string) (v : option A)
    (validate : A -> Result B) (l : Loc) (e : ErrorMsg) :
  In (l, e) (errors_of (required k v validate)) -> exists l', l = Key k :: l'.
Proof.
  destruct v as [a|]; simpl.
  - intros H. apply In_at_loc in H. destruct H as [l' [-> _]]. eauto.
  - intros [H|[]]. inversion H. eauto.
Qed.

Lemma In_optional_key (A B : Type) (k : string) (v : option A)
    (validate : A -> Result B) (l : Loc) (e : ErrorMsg) :
  In (l, e) (errors_of (optional k v validate)) -> exists l', l = Key k :: l'.
Proof.
  destruct v as [a|]; simpl.
  - intros H. apply In_at_loc in H. destruct H as [l' [-> _]]. eauto.
  - intros [].
Qed.

Lemma In_with_default_key (A B : Type) (k : string) (v : option A) (d : B)
    (validate : A -> Result B) (l : Loc) (e : ErrorMsg) :
  In (l, e) (errors_of (with_default k v d validate)) -> exists l', l = Key k :: l'.
Proof.
  destruct v as [a|]; simpl.
  - intros H. apply In_at_loc in H. destruct H as [l' [-> _]]. eauto.
  - intros [].
Qed.

(** What a successful validation says about the data. *)
Lemma fmap_Ok (A B : Type) (g : A -> B) (r : Result A) (b : B) :
  g <$> r = Ok b -> exists a, r = Ok a /\ b = g a.
Proof. destruct r; simpl; intros H; inversion H; eauto. Qed.

Lemma ap_Ok (A B : Type) (rf : Result (A -> B)) (ra : Result A) (b : B) :
  rf <*> ra = Ok b -> exists g a, rf = Ok g /\ ra = Ok a /\ b = g a.
Proof. destruct rf, ra; simpl; intros H; inversion H; eauto. Qed.

Lemma at_loc_Ok (A : Type) (i : LocItem) (r : Result A) (a : A) :
  at_loc i r = Ok a -> r = Ok a.
Proof. destruct r; simpl; intros H; inversion H; reflexivity. Qed.

Lemma required_Ok (A B : Type) (k : string) (v : option A)
    (validate : A -> Result B) (b : B) :
  required k v validate = Ok b -> exists a, v = Some a /\ validate a = Ok b.
Proof.
  destruct v as [a|]; simpl; intros H; [|discriminate].
  apply at_loc_Ok in H. eauto.
Qed.

Lemma optional_Ok (A B : Type) (k : string) (v : option A)
    (validate : A -> Result B) (ob : option B) :
  optional k v validate = Ok ob ->
  (v = None /\ ob = None) \/
  (exists a b, v = Some a /\ validate a = Ok b /\ ob = Some b).
Proof.
  destruct v as [a|]; simpl; intros H.
  - apply at_loc_Ok, fmap_Ok in H. destruct H as [b [H ->]]. right; eauto.
  - inversion H. left; auto.
Qed.

Lemma with_default_Ok (A B : Type) (k : string) (v : option A) (d : B)
    (validate : A -> Result B) (b : B) :
  with_default k v d validate = Ok b ->
  (v = None /\ b = d) \/ (exists a, v = Some a /\ validate a = Ok b).
Proof.
  destruct v as [a|]; simpl; intros H.
  - apply at_loc_Ok in H. right; eauto.
  - inversion H. left; auto.
Qed.

Lemma and_then_Ok (A B : Type) (r : Result A) (validator : A -> Outcome B) (b : B) :
  and_then r validator = Ok b -> exists a, r = Ok a /\ validator a = Return b.
Proof.
  destruct r as [a|]; simpl; intros H; [|discriminate].
  exists a. split; [reflexivity|].
  destruct (validator a); simpl in H; inversion H; reflexivity.
Qed.

Lemma any_Ok (A : Type) (a b : A) : any a = Ok b -> b = a.
Proof. unfold any. intros H; inversion H; reflexivity. Qed.

Lemma constr_Ok (lit s s' : string) : constr lit s = Ok s' -> s' = s.
Proof.
  unfold constr. destruct (re_match_literal lit s); intros H; inversion H; reflexivity.
Qed.

Lemma list_items_Ok (A B : Type) (item : A -> Result B) (l : list A) :
  forall (i : nat) (l' : list B),
    list_items item i l = Ok l' -> Forall2 (fun a b => item a = Ok b) l l'.
Proof.
  induction l as [|a rest IH]; simpl; intros i l' H.
  - inversion H. constructor.
  - apply ap_Ok in H. destruct H as [g [bs [Hg [Hrest ->]]]].
    apply fmap_Ok in Hg. destruct Hg as [b [Hb ->]].
    apply at_loc_Ok in Hb. constructor; eauto.
Qed.

Lemma list_items_any (A : Type) (l : list A) :
  forall i : nat, list_items any i l = Ok l.
Proof.
  induction l as [|a rest IH]; simpl; intros i; [reflexivity|].
  rewrite IH. reflexivity.
Qed.

Lemma is_ok_list_items (A B : Type) (item : A -> Result B) (l : list A) :
  forall i : nat, is_ok (list_items item i l) = forallb (fun a => is_ok (item a)) l.
Proof.
  induction l as [|a rest IH]; simpl; intros i; [reflexivity|].
  rewrite is_ok_ap, is_ok_fmap, is_ok_at_loc, IH. reflexivity.
Qed.

Lemma conlist_Ok (A B : Type) (lo hi : option nat) (item : A -> Result B)
    (l : list A) (l' : list B) :
  conlist lo hi item l = Ok l' -> Forall2 (fun a b => item a = Ok b) l l'.
Proof.
  unfold conlist. destruct (list_length_validator lo hi l) as [v|e] eqn:Hlen;
    [|discriminate].
  assert (v = l) as ->.
  { unfold list_length_validator in Hlen.
    destruct lo as [lo|], hi as [hi|]; simpl in Hlen;
      repeat match type of Hlen with
             | context [if ?c then _ else _] => destruct c; simpl in Hlen
             end; inversion Hlen; reflexivity. }
  apply list_items_Ok.
Qed.

Lemma Forall2_map_eq (A B C : Type) (P : A -> B -> Prop) (g : B -> C) (h : A -> C)
    (l : list A) (l' : list B) :
  (forall a b, P a b -> g b = h a) -> Forall2 P l l' -> map g l' = map h l.
Proof.
  intros Hgh H. induction H; simpl; [reflexivity|].
  f_equal; auto.
Qed.

Lemma same_verdict_refl (A : Type) (r : Result A) : same_verdict r r.
Proof. split; reflexivity. Qed.

Lemma same_verdict_fmap (A B A' B' : Type) (g : A -> B) (g' : A' -> B')
    (r : Result A) (r' : Result A') :
  same_verdict r r' -> same_verdict (g <$> r) (g' <$> r').
Proof.
  intros [He Ho]. split.
  - rewrite !errors_of_fmap. exact He.
  - rewrite !is_ok_fmap. exact Ho.
Qed.

Lemma same_verdict_ap (A B A' B' : Type) (rf : Result (A -> B)) (rf' : Result (A' -> B'))
    (ra : Result A) (ra' : Result A') :
  same_verdict rf rf' -> same_verdict ra ra' ->
  same_verdict (rf <*> ra) (rf' <*> ra').
Proof.
  intros [He Ho] [He' Ho']. split.
  - rewrite !errors_of_ap. congruence.
  - rewrite !is_ok_ap. congruence.
Qed.

Lemma same_verdict_at_loc (A A' : Type) (i : LocItem) (r : Result A) (r' : Result A') :
  same_verdict r r' -> same_verdict (at_loc i r) (at_loc i r').
Proof.
  intros [He Ho]. split.
  - rewrite !errors_of_at_loc. congruence.
  - rewrite !is_ok_at_loc. exact Ho.
Qed.

Lemma same_verdict_required (A B A' B' : Type) (k : string) (g : A -> A')
    (v : option A) (validate : A -> Result B) (validate' : A' -> Result B') :
  (forall a, same_verdict (validate a) (validate' (g a))) ->
  same_verdict (required k v validate) (required k (option_map g v) validate').
Proof.
  intros H. destruct v as [a|]; simpl.
  - apply same_verdict_at_loc, H.
  - split; reflexivity.
Qed.

Lemma same_verdict_list_items (A B A' B' : Type) (g : A -> A')
    (item : A -> Result B) (item' : A' -> Result B') (l : list A) :
  (forall a, same_verdict (item a) (item' (g a))) ->
  forall i : nat, same_verdict (list_items item i l) (list_items item' i (map g l)).
Proof.
  intros H. induction l as [|a rest IH]; simpl; intros i.
  - split; reflexivity.
  - apply same_verdict_ap; [|apply IH].
    apply same_verdict_fmap, same_verdict_at_loc, H.
Qed.

Lemma same_verdict_optional_list (A B A' B' : Type) (k : string) (g : A -> A')
    (v : option (list A)) (item : A -> Result B) (item' : A' -> Result B') :
  (forall a, same_verdict (item a) (item' (g a))) ->
  same_verdict (optional k v (List_ item)) (optional k (option_map (map g) v) (List_ item')).
Proof.
  intros H. destruct v as [l|]; simpl.
  - apply same_verdict_at_loc, same_verdict_fmap. apply same_verdict_list_items, H.
  - split; reflexivity.
Qed.

Lemma In_errors_at (k : string) (l : Loc) (e : ErrorMsg) (es : list ErrorWrapper) :
  In (Key k :: l, e) es <-> In (l, e) (errors_at k es).
Proof.
  unfold errors_at. rewrite in_flat_map. split.
  - intros H. exists (Key k :: l, e). split; [exact H|].
    simpl. rewrite String.eqb_refl. left; reflexivity.
  - intros [[l0 e0] [Hin H]]. simpl in H.
    destruct l0 as [|[k'|n] l0]; simpl in H; try contradiction.
    destruct (String.eqb_spec k' k) as [->|]; simpl in H; [|contradiction].
    destruct H as [H|[]]. inversion H; subst. exact Hin.
Qed.

Lemma errors_at_app (k : string) (es1 es2 : list ErrorWrapper) :
  errors_at k (es1 ++ es2) = (errors_at k es1 ++ errors_at k es2)%list.
Proof. unfold errors_at. apply flat_map_app. Qed.

Lemma errors_at_prefixed (k k' : string) (es : list ErrorWrapper) :
  errors_at k (map (fun e => (Key k' :: fst e, snd e)) es) =
  if (k' =? k)%string then es else [].
Proof.
  unfold errors_at. induction es as [|[l e] es IH]; simpl.
  - destruct (k' =? k)%string; reflexivity.
  - rewrite IH. destruct (k' =? k)%string; reflexivity.
Qed.

Lemma errors_at_required (A B : Type) (k k' : string) (v : option A)
    (validate : A -> Result B) :
  errors_at k (errors_of (required k' v validate)) =
  if (k' =? k)%string
  then match v with
       | None => [([], MissingError)]
       | Some a => errors_of (validate a)
       end
  else [].
Proof.
  destruct v as [a|]; simpl.
  - rewrite errors_of_at_loc. apply errors_at_prefixed.
  - destruct (k' =? k)%string; reflexivity.
Qed.

Lemma errors_at_optional (A B : Type) (k k' : string) (v : option A)
    (validate : A -> Result B) :
  errors_at k (errors_of (optional k' v validate)) =
  if (k' =? k)%string
  then match v with
       | None => []
       | Some a => errors_of (validate a)
       end
  else [].
Proof.
  destruct v as [a|]; simpl.
  - rewrite errors_of_at_loc, errors_of_fmap. apply errors_at_prefixed.
  - destruct (k' =? k)%string; reflexivity.
Qed.

Lemma errors_at_with_default (A B : Type) (k k' : string) (v : option A) (d : B)
    (validate : A -> Result B) :
  errors_at k (errors_of (with_default k' v d validate)) =
  if (k' =? k)%string
  then match v with
       | None => []
       | Some a => errors_of (validate a)
       end
  else [].
Proof.
  destruct v as [a|]; simpl.
  - rewrite errors_of_at_loc. apply errors_at_prefixed.
  - destruct (k' =? k)%string; reflexivity.
Qed.

Create Rewrite HintDb field_errors.

#[local] Hint Rewrite errors_of_ap errors_of_fmap errors_at_app
  errors_at_required errors_at_optional errors_at_with_default : field_errors.

(** Reduces the errors under one key of a constructor to those of the
    validation of that field. *)
Ltac field_errors :=
  autorewrite with field_errors;
  cbn [String.eqb Ascii.eqb Bool.eqb app];
  rewrite ?app_nil_r.

(** ** Properties of the validators of [model.py] *)

Lemma for_in_forallb (A : Type) (c : A -> bool) (e : ErrorMsg)
    (body : A -> Outcome unit) (l : list A) :
  (forall x, body x = if c x then Return tt else Raise e) ->
  for_in l body = if forallb c l then Return tt else Raise e.
Proof.
  intros Hbody. induction l as [|x rest IH]; simpl; [reflexivity|].
  rewrite Hbody. destruct (c x); simpl; [exact IH | reflexivity].
Qed.

Lemma check_num_items_spec (v : list (list float)) :
  check_num_items v =
  if forallb has_xyz v then Return v else Raise (AssertionError xyz_msg).
Proof.
  unfold check_num_items.
  rewrite (for_in_forallb has_xyz (AssertionError xyz_msg)) by reflexivity.
  destruct (forallb has_xyz v); reflexivity.
Qed.

Lemma check_num_items_holes_spec (v : list (list (list float))) :
  check_num_items_holes v =
  if forallb (forallb has_xyz) v then Return v else Raise (AssertionError xyz_msg).
Proof.
  unfold check_num_items_holes.
  rewrite (for_in_forallb (forallb has_xyz) (AssertionError xyz_msg)).
  - destruct (forallb (forallb has_xyz) v); reflexivity.
  - intros loop. apply for_in_forallb. reflexivity.
Qed.

Lemma forallb_has_xyz_false (b : list (list float)) :
  forallb has_xyz b = false <-> exists pt, In pt b /\ length pt <> 3.
Proof.
  split.
  - intros H. induction b as [|pt rest IH]; simpl in H; [discriminate|].
    apply andb_false_iff in H. destruct H as [H|H].
    + exists pt. split; [left; reflexivity|].
      unfold has_xyz in H. apply Nat.eqb_neq. exact H.
    + destruct (IH H) as [pt' [Hin Hlen]]. exists pt'. split; [right|]; assumption.
  - intros [pt [Hin Hlen]]. destruct (forallb has_xyz b) eqn:Hall; [|reflexivity].
    rewrite forallb_forall in Hall. apply Hall in Hin.
    unfold has_xyz in Hin. apply Nat.eqb_eq in Hin. contradiction.
Qed.

Lemma forallb_holes_false (h : list (list (list float))) :
  forallb (forallb has_xyz) h = false <->
  exists loop pt, In loop h /\ In pt loop /\ length pt <> 3.
Proof.
  split.
  - intros H. induction h as [|loop rest IH]; simpl in H; [discriminate|].
    apply andb_false_iff in H. destruct H as [H|H].
    + apply forallb_has_xyz_false in H. destruct H as [pt [Hin Hlen]].
      exists loop, pt. split; [left; reflexivity | split; assumption].
    + destruct (IH H) as [loop' [pt [Hl [Hin Hlen]]]].
      exists loop', pt. split; [right; assumption | split; assumption].
  - intros [loop [pt [Hl [Hin Hlen]]]].
    destruct (forallb (forallb has_xyz) h) eqn:Hall; [|reflexivity].
    rewrite forallb_forall in Hall. apply Hall in Hl.
    assert (forallb has_xyz loop = false) as Hf
      by (apply forallb_has_xyz_false; eauto).
    congruence.
Qed.

Lemma list_items_id (A : Type) (item : A -> Result A) (l : list A) :
  (forall a, item a = Ok a) -> forall i : nat, list_items item i l = Ok l.
Proof.
  intros Hitem. induction l as [|a rest IH]; simpl; intros i; [reflexivity|].
  rewrite Hitem, IH. reflexivity.
Qed.

Lemma List_points (v : list (list float)) : List_ (List_ any) v = Ok v.
Proof.
  apply list_items_id. intros pt. apply list_items_any.
Qed.

Lemma List_loops (v : list (list (list float))) : List_ (List_ (List_ any)) v = Ok v.
Proof.
  apply list_items_id. intros loop. apply List_points.
Qed.

(** The errors of the [boundary] and [holes] fields of a Face3D. *)
Lemma boundary_errors (b : list (list float)) :
  errors_of (and_then (List_ (List_ any) b) check_num_items) =
  if forallb has_xyz b then [] else [([], AssertionError xyz_msg)].
Proof.
  rewrite List_points. simpl. rewrite check_num_items_spec.
  destruct (forallb has_xyz b); reflexivity.
Qed.

Lemma holes_errors (h : list (list (list float))) :
  errors_of (and_then (List_ (List_ (List_ any)) h) check_num_items_holes) =
  if forallb (forallb has_xyz) h then [] else [([], AssertionError xyz_msg)].
Proof.
  rewrite List_loops. simpl. rewrite check_num_items_holes_spec.
  destruct (forallb (forallb has_xyz) h); reflexivity.
Qed.

(** A list of numbers under [min_items] and [max_items] fails on its length
    only. *)
Lemma conlist_any_errors (A : Type) (lo hi : option nat) (v : list A)
    (l : Loc) (e : ErrorMsg) :
  In (l, e) (errors_of (conlist lo hi any v)) ->
  exists n, e = ListMinLengthError n \/ e = ListMaxLengthError n.
Proof.
  unfold conlist, list_length_validator.
  destruct lo as [lo|], hi as [hi|]; simpl;
    repeat match goal with
           | |- context [if ?c then _ else _] => destruct c; simpl
           end;
    unfold List_; rewrite ?list_items_any; simpl;
    intros H; try contradiction;
    destruct H as [H|[]]; inversion H; eauto.
Qed.

Lemma constr_errors (lit s : string) (l : Loc) (e : ErrorMsg) :
  In (l, e) (errors_of (constr lit s)) -> exists p, e = StrRegexError p.
Proof.
  unfold constr. destruct (re_match_literal lit s); simpl; [intros []|].
  intros [H|[]]. inversion H. eauto.
Qed.

Lemma Plane_errors_not_assertion (obj : PlaneObj) (l : Loc) (msg : string) :
  ~ In (l, AssertionError msg) (errors_of (Plane_parse_obj obj)).
Proof.
  unfold Plane_parse_obj. autorewrite with field_errors. rewrite !in_app_iff.
  destruct obj as [t n o x]; simpl.
  intros [[[H|H]|H]|H].
  - destruct t as [t|]; simpl in H; [|contradiction].
    apply In_at_loc in H. destruct H as [l' [_ H]].
    apply constr_errors in H. destruct H as [p H]; discriminate.
  - destruct n as [n|]; simpl in H.
    + apply In_at_loc in H. destruct H as [l' [_ H]].
      apply conlist_any_errors in H. destruct H as [k [H|H]]; discriminate.
    + destruct H as [H|[]]; discriminate.
  - destruct o as [o|]; simpl in H.
    + apply In_at_loc in H. destruct H as [l' [_ H]].
      apply conlist_any_errors in H. destruct H as [k [H|H]]; discriminate.
    + destruct H as [H|[]]; discriminate.
  - destruct x as [x|]; simpl in H; [|contradiction].
    apply In_at_loc in H. destruct H as [l' [_ H]].
    rewrite errors_of_fmap in H.
    apply conlist_any_errors in H. destruct H as [k [H|H]]; discriminate.
Qed.

(** Takes apart a constructor that succeeded: one equation per field. *)
Ltac invert_ok H :=
  repeat match type of H with
         | _ <*> _ = Ok _ =>
             let g := fresh "g" in
             let a := fresh "a" in
             let Hf := fresh "Hfield" in
             apply ap_Ok in H; destruct H as [g [a [H [Hf ?]]]]; subst
         | _ <$> _ = Ok _ =>
             let a := fresh "a" in
             let Hf := fresh "Hfield" in
             apply fmap_Ok in H; destruct H as [a [Hf ?]]; subst
         end.

(** Replays the equations of the fields in a constructor to evaluate. *)
Ltac rewrite_fields :=
  repeat match goal with
         | H : ?r = Ok _ |- context [?r] => rewrite H
         end.

(** ** The claims *)

(** C5.  Constructing a Face3D fails when a point of the boundary or of a
    hole does not have exactly 3 coordinates: the assertion of
    [check_num_items] is reported under [boundary] exactly when such a point
    is in the boundary, that of [check_num_items_holes] under [holes] exactly
    when such a point is in a hole, and the construction does not succeed.
    When every point has 3 coordinates, no error of the construction is that
    assertion (the spec's GeometryError). *)
Theorem Face3D_point_arity (obj : Face3DObj) :
  (forall b, Face3DObj_boundary obj = Some b ->
     (In ([Key "boundary"], AssertionError xyz_msg) (errors_of (Face3D_parse_obj obj))
      <-> exists pt, In pt b /\ length pt <> 3))
  /\ (forall h, Face3DObj_holes obj = Some h ->
     (In ([Key "holes"], AssertionError xyz_msg) (errors_of (Face3D_parse_obj obj))
      <-> exists loop pt, In loop h /\ In pt loop /\ length pt <> 3))
  /\ ((exists pt, In pt (Face3DObj_points obj) /\ length pt <> 3) ->
      is_ok (Face3D_parse_obj obj) = false)
  /\ ((forall pt, In pt (Face3DObj_points obj) -> length pt = 3) ->
      forall l, ~ In (l, AssertionError xyz_msg) (errors_of (Face3D_parse_obj obj))).
Proof.
  assert (Hb : forall b, Face3DObj_boundary obj = Some b ->
     (In ([Key "boundary"], AssertionError xyz_msg) (errors_of (Face3D_parse_obj obj))
      <-> exists pt, In pt b /\ length pt <> 3)).
  { intros b Hb. rewrite In_errors_at. unfold Face3D_parse_obj. field_errors.
    rewrite Hb, boundary_errors, <- forallb_has_xyz_false.
    destruct (forallb has_xyz b); simpl; split; intros H;
      try discriminate; try contradiction; auto. }
  assert (Hh : forall h, Face3DObj_holes obj = Some h ->
     (In ([Key "holes"], AssertionError xyz_msg) (errors_of (Face3D_parse_obj obj))
      <-> exists loop pt, In loop h /\ In pt loop /\ length pt <> 3)).
  { intros h Hh. rewrite In_errors_at. unfold Face3D_parse_obj. field_errors.
    rewrite Hh, holes_errors, <- forallb_holes_false.
    destruct (forallb (forallb has_xyz) h); simpl; split; intros H;
      try discriminate; try contradiction; auto. }
  split; [exact Hb|]. split; [exact Hh|]. split.
  - intros [pt [Hin Hlen]]. unfold Face3DObj_points in Hin.
    apply in_app_or in Hin. destruct Hin as [Hin|Hin].
    + destruct (Face3DObj_boundary obj) as [b|] eqn:Eb; [|contradiction].
      eapply In_errors_not_ok. apply (Hb b eq_refl). eauto.
    + destruct (Face3DObj_holes obj) as [h|] eqn:Eh; [|contradiction].
      simpl in Hin. apply in_concat in Hin. destruct Hin as [loop [Hl Hpt]].
      eapply In_errors_not_ok. apply (Hh h eq_refl). eauto.
  - intros Hall l. unfold Face3D_parse_obj.
    autorewrite with field_errors. rewrite !in_app_iff.
    unfold Face3DObj_points in Hall.
    intros [[[H|H]|H]|H].
    + destruct (Face3DObj_type obj) as [t|]; simpl in H; [|contradiction].
      apply In_at_loc in H. destruct H as [l' [_ H]].
      apply constr_errors in H. destruct H as [p H]; discriminate.
    + destruct (Face3DObj_boundary obj) as [b|]; simpl in H.
      * apply In_at_loc in H. destruct H as [l' [_ H]].
        rewrite boundary_errors in H.
        destruct (forallb has_xyz b) eqn:Hf; [contradiction|].
        apply forallb_has_xyz_false in Hf. destruct Hf as [pt [Hin Hlen]].
        apply Hlen, Hall. apply in_or_app. left. exact Hin.
      * destruct H as [H|[]]; discriminate.
    + destruct (Face3DObj_holes obj) as [h|]; simpl in H; [|contradiction].
      apply In_at_loc in H. destruct H as [l' [_ H]].
      rewrite errors_of_fmap, holes_errors in H.
      destruct (forallb (forallb has_xyz) h) eqn:Hf; [contradiction|].
      apply forallb_holes_false in Hf. destruct Hf as [loop [pt [Hl [Hin Hlen]]]].
      apply Hlen, Hall. apply in_or_app. right. simpl.
      apply in_concat. eauto.
    + destruct (Face3DObj_plane obj) as [p|]; simpl in H; [|contradiction].
      apply In_at_loc in H. destruct H as [l' [_ H]].
      rewrite errors_of_fmap in H.
      exact (Plane_errors_not_assertion _ _ _ H).
Qed.

(** C3.  [check_num_items] looks at the coordinates of every point of the
    boundary and not at the number of points: a boundary whose points have
    3 coordinates each is accepted whatever its length, so a Face3D with
    fewer than 3 points, or with none, is constructed. *)
Theorem Face3D_boundary_count_unchecked (boundary : list (list float)) :
  (forall p, In p boundary -> length p = 3) ->
  Face3D_parse_obj (geometry_of boundary) =
  Ok {| Face3D_type := "Face3D";
        Face3D_boundary := boundary;
        Face3D_holes := None;
        Face3D_plane := None |}.
Proof.
  intros Hall. unfold Face3D_parse_obj, geometry_of.
  cbn [Face3DObj_type Face3DObj_boundary Face3DObj_holes Face3DObj_plane
       with_default required optional].
  rewrite List_points. cbn [and_then]. rewrite check_num_items_spec.
  destruct (forallb has_xyz boundary) eqn:Hf; [reflexivity|].
  apply forallb_has_xyz_false in Hf. destruct Hf as [p [Hin Hlen]].
  exfalso. exact (Hlen (Hall p Hin)).
Qed.

(** C10.  On the holes of a Face3D only the number of coordinates of every
    point is checked, never the number of points of a loop: when every point
    that is present has 3 coordinates, whatever the lengths of the loops, no
    error is reported under [holes], and in the data of any Face3D that is
    accepted the holes can be replaced by these, the result being accepted
    with these holes. *)
Theorem holes_loop_length_unchecked (obj : Face3DObj) (h : list (list (list float))) :
  (forall loop pt, In loop h -> In pt loop -> length pt = 3) ->
  (Face3DObj_holes obj = Some h ->
   forall l e, ~ In (Key "holes" :: l, e) (errors_of (Face3D_parse_obj obj)))
  /\ (forall g, Face3D_parse_obj obj = Ok g ->
      Face3D_parse_obj (Face3DObj_set_holes obj (Some h)) =
      Ok (Face3D_set_holes g (Some h))).
Proof.
  intros Hall.
  assert (Hf : forallb (forallb has_xyz) h = true).
  { destruct (forallb (forallb has_xyz) h) eqn:Hf; [reflexivity|].
    apply forallb_holes_false in Hf. destruct Hf as [loop [pt [Hl [Hin Hlen]]]].
    exfalso. apply Hlen. eapply Hall; eassumption. }
  split.
  - intros Hh l e. rewrite In_errors_at. unfold Face3D_parse_obj. field_errors.
    rewrite Hh, holes_errors, Hf. intros [].
  - intros g Hg. unfold Face3D_parse_obj in *. invert_ok Hg.
    cbn [Face3DObj_set_holes Face3DObj_type Face3DObj_boundary Face3DObj_holes
         Face3DObj_plane].
    rewrite_fields.
    cbn [optional]. rewrite List_loops. cbn [and_then].
    rewrite check_num_items_holes_spec, Hf. reflexivity.
Qed.

(** The assertion of a [suface_bc_objects] validator on a value with
    [n] linked objects, when [k] are expected. *)
Lemma arity_assertion (k n : nat) (msg : string) (v : BoundaryCondition)
    (l : Loc) (e : ErrorMsg) :
  In (l, e) (errors_of (lift (assert (n =? k) msg ;; Return v))) <->
  n <> k /\ l = [] /\ e = AssertionError msg.
Proof.
  destruct (Nat.eqb_spec n k) as [Heq|Hne]; simpl.
  - split; [intros [] | intros [H _]; contradiction].
  - split.
    + intros [H|[]]. inversion H. auto.
    + intros [_ [-> ->]]. left; reflexivity.
Qed.

(** C1.  With a [Surface] boundary condition the construction of a Face
    fails unless it links exactly 2 objects, and that of an Aperture or of a
    Door unless it links exactly 3: the assertion of the owner's
    [suface_bc_objects] (the spec's AdjacencyArityError) is among the errors
    exactly when the count differs.  On [Ground], [Outdoors] and [Adiabatic]
    the check of every owner returns the value. *)
Theorem surface_bc_objects_arity :
  (forall (obj : FaceObj) (objs : list string),
     FaceObj_boundary_condition obj = Some (Surface objs) ->
     (In ([Key "boundary_condition"],
          AssertionError
            "Face Surface boundary condition must have 2 boundary_condition_objects.")
         (errors_of (Face_parse_obj obj)) <-> length objs <> 2)
     /\ (length objs <> 2 -> is_ok (Face_parse_obj obj) = false))
  /\ (forall (obj : ApertureObj) (objs : list string),
     ApertureObj_boundary_condition obj = Some (Surface objs) ->
     (In ([Key "boundary_condition"],
          AssertionError
            "Aperture Surface boundary condition must have 3 boundary_condition_objects.")
         (errors_of (Aperture_parse_obj obj)) <-> length objs <> 3)
     /\ (length objs <> 3 -> is_ok (Aperture_parse_obj obj) = false))
  /\ (forall (obj : DoorObj) (objs : list string),
     DoorObj_boundary_condition obj = Some (Surface objs) ->
     (In ([Key "boundary_condition"],
          AssertionError
            "Door Surface boundary condition must have 3 boundary_condition_objects.")
         (errors_of (Door_parse_obj obj)) <-> length objs <> 3)
     /\ (length objs <> 3 -> is_ok (Door_parse_obj obj) = false))
  /\ (forall v : BoundaryCondition,
     v = Ground \/ v = Outdoors \/ v = Adiabatic ->
     Face_suface_bc_objects v = Return v
     /\ Aperture_suface_bc_objects v = Return v
     /\ Door_suface_bc_objects v = Return v).
Proof.
  split; [|split; [|split]].
  - intros obj objs Hbc.
    assert (Hiff : In ([Key "boundary_condition"],
          AssertionError
            "Face Surface boundary condition must have 2 boundary_condition_objects.")
         (errors_of (Face_parse_obj obj)) <-> length objs <> 2).
    { rewrite In_errors_at. unfold Face_parse_obj. field_errors. rewrite Hbc.
      unfold Union_Ground_Outdoors_Adiabatic_Surface, Face_suface_bc_objects.
      cbn [and_then bc_type boundary_condition_objects String.eqb Ascii.eqb Bool.eqb].
      rewrite arity_assertion. intuition. }
    split; [exact Hiff|].
    intros Hne. eapply In_errors_not_ok. apply Hiff, Hne.
  - intros obj objs Hbc.
    assert (Hiff : In ([Key "boundary_condition"],
          AssertionError
            "Aperture Surface boundary condition must have 3 boundary_condition_objects.")
         (errors_of (Aperture_parse_obj obj)) <-> length objs <> 3).
    { rewrite In_errors_at. unfold Aperture_parse_obj. field_errors. rewrite Hbc.
      unfold Union_Outdoors_Surface, Aperture_suface_bc_objects.
      cbn [and_then bc_type boundary_condition_objects String.eqb Ascii.eqb Bool.eqb].
      rewrite arity_assertion. intuition. }
    split; [exact Hiff|].
    intros Hne. eapply In_errors_not_ok. apply Hiff, Hne.
  - intros obj objs Hbc.
    assert (Hiff : In ([Key "boundary_condition"],
          AssertionError
            "Door Surface boundary condition must have 3 boundary_condition_objects.")
         (errors_of (Door_parse_obj obj)) <-> length objs <> 3).
    { rewrite In_errors_at. unfold Door_parse_obj. field_errors. rewrite Hbc.
      unfold Union_Outdoors_Surface, Door_suface_bc_objects.
      cbn [and_then bc_type boundary_condition_objects String.eqb Ascii.eqb Bool.eqb].
      rewrite arity_assertion. intuition. }
    split; [exact Hiff|].
    intros Hne. eapply In_errors_not_ok. apply Hiff, Hne.
  - intros v [-> | [-> | ->]]; repeat split; reflexivity.
Qed.

Lemma is_ok_errors_nil (A : Type) (r : Result A) : is_ok r = true -> errors_of r = [].
Proof. destruct r; [reflexivity | discriminate]. Qed.

Lemma is_ok_optional_any (A : Type) (k : string) (v : option A) :
  is_ok (optional k v any) = true.
Proof. destruct v; reflexivity. Qed.

Lemma conlist_min_short (A B : Type) (lo : nat) (item : A -> Result B) (l : list A) :
  length l < lo ->
  conlist (Some lo) None item l = ValidationError [([], ListMinLengthError lo)].
Proof.
  intros H. unfold conlist, list_length_validator.
  destruct (Nat.ltb_spec (length l) lo); [reflexivity | lia].
Qed.

Lemma conlist_min_enough (A B : Type) (lo : nat) (item : A -> Result B) (l : list A) :
  lo <= length l -> conlist (Some lo) None item l = List_ item l.
Proof.
  intros H. unfold conlist, list_length_validator.
  destruct (Nat.ltb_spec (length l) lo); [lia | reflexivity].
Qed.

(** C6.  The construction of a Room fails when the list of faces has fewer
    than 4 elements, with the error of [min_items=4] under [faces] (the
    spec's MinimumCountError).  With 4 or more faces that are each accepted,
    nothing is reported under [faces], and the Room is constructed when its
    other fields are accepted. *)
Theorem Room_faces_min_items (obj : RoomObj) (faces : list FaceObj) :
  RoomObj_faces obj = Some faces ->
  (length faces < 4 ->
     In ([Key "faces"], ListMinLengthError 4) (errors_of (Room_parse_obj obj))
     /\ is_ok (Room_parse_obj obj) = false)
  /\ (4 <= length faces ->
      (forall f, In f faces -> is_ok (Face_parse_obj f) = true) ->
      (forall l e, ~ In (Key "faces" :: l, e) (errors_of (Room_parse_obj obj)))
      /\ (Room_other_fields_ok obj = true -> is_ok (Room_parse_obj obj) = true)).
Proof.
  intros Hfaces. split.
  - intros Hlen.
    assert (Hin : In ([Key "faces"], ListMinLengthError 4)
                     (errors_of (Room_parse_obj obj))).
    { rewrite In_errors_at. unfold Room_parse_obj. field_errors.
      rewrite Hfaces, conlist_min_short by exact Hlen. left; reflexivity. }
    split; [exact Hin | exact (In_errors_not_ok _ _ Hin)].
  - intros Hlen Hall.
    assert (Hok : is_ok (conlist (Some 4) None Face_parse_obj faces) = true).
    { rewrite conlist_min_enough by exact Hlen.
      unfold List_. rewrite is_ok_list_items. apply forallb_forall. exact Hall. }
    split.
    + intros l e. rewrite In_errors_at. unfold Room_parse_obj. field_errors.
      rewrite Hfaces, (is_ok_errors_nil _ Hok). intros [].
    + unfold Room_other_fields_ok, Room_parse_obj. intros Hother.
      repeat (apply andb_prop in Hother; destruct Hother as [Hother ?]).
      rewrite !is_ok_ap, is_ok_fmap, is_ok_optional_any.
      rewrite Hfaces. cbn [required]. rewrite is_ok_at_loc, Hok.
      repeat (apply andb_true_intro; split); assumption || reflexivity.
Qed.

Lemma number_size_validator_spec (v : float) :
  number_size_validator 0 360 v =
  match v with
  | Finite q =>
      if Qle_bool 0 q
      then if Qle_bool 360 q then ValidationError [([], NumberNotLtError 360)] else Ok v
      else ValidationError [([], NumberNotGeError 0)]
  | PosInf => ValidationError [([], NumberNotLtError 360)]
  | NegInf | NaN => ValidationError [([], NumberNotGeError 0)]
  end.
Proof.
  unfold number_size_validator. destruct v as [q| | |]; simpl; try reflexivity.
  change (inject_Z 0) with 0%Q. change (inject_Z 360) with 360%Q.
  destruct (Qle_bool 0 q); simpl; [|reflexivity].
  destruct (Qle_bool 360 q); reflexivity.
Qed.

(** C7.  A Model whose [north_angle] is at least 0 and less than 360 has no
    error under [north_angle] and is constructed when its other fields are
    accepted; a [north_angle] that is negative is rejected by [ge=0] and one
    that is 360 or more by [lt=360] (the spec's RangeError). *)
Theorem Model_north_angle_range (obj : ModelObj) (v : float) :
  ModelObj_north_angle obj = Some v ->
  (forall q, v = Finite q -> (0 <= q)%Q -> (q < 360)%Q ->
     (forall l e, ~ In (Key "north_angle" :: l, e) (errors_of (Model_parse_obj obj)))
     /\ (Model_other_fields_ok obj = true -> is_ok (Model_parse_obj obj) = true))
  /\ (v = NegInf \/ (exists q, v = Finite q /\ (q < 0)%Q) ->
      In ([Key "north_angle"], NumberNotGeError 0) (errors_of (Model_parse_obj obj))
      /\ is_ok (Model_parse_obj obj) = false)
  /\ (v = PosInf \/ (exists q, v = Finite q /\ (360 <= q)%Q) ->
      In ([Key "north_angle"], NumberNotLtError 360) (errors_of (Model_parse_obj obj))
      /\ is_ok (Model_parse_obj obj) = false).
Proof.
  intros Hna.
  assert (Herr : forall l e,
    In (Key "north_angle" :: l, e) (errors_of (Model_parse_obj obj)) <->
    In (l, e) (errors_of (number_size_validator 0 360 v))).
  { intros l e. rewrite In_errors_at. unfold Model_parse_obj. field_errors.
    rewrite Hna. reflexivity. }
  split; [|split].
  - intros q -> Hge Hlt.
    assert (Hok : number_size_validator 0 360 (Finite q) = Ok (Finite q)).
    { rewrite number_size_validator_spec.
      apply Qle_bool_iff in Hge. rewrite Hge.
      destruct (Qle_bool 360 q) eqn:Hle; [|reflexivity].
      apply Qle_bool_iff in Hle. exfalso. exact (Qlt_not_le _ _ Hlt Hle). }
    split.
    + intros l e. rewrite Herr, Hok. intros [].
    + unfold Model_other_fields_ok, Model_parse_obj. intros Hother.
      repeat (apply andb_prop in Hother; destruct Hother as [Hother ?]).
      rewrite !is_ok_ap, is_ok_fmap, is_ok_optional_any.
      rewrite Hna. cbn [with_default]. rewrite is_ok_at_loc, Hok.
      repeat (apply andb_true_intro; split); assumption || reflexivity.
  - intros Hneg.
    assert (Hin : In ([Key "north_angle"], NumberNotGeError 0)
                     (errors_of (Model_parse_obj obj))).
    { rewrite Herr, number_size_validator_spec.
      destruct Hneg as [-> | [q [-> Hq]]]; [left; reflexivity|].
      destruct (Qle_bool 0 q) eqn:Hle; [|left; reflexivity].
      apply Qle_bool_iff in Hle. exfalso. exact (Qlt_not_le _ _ Hq Hle). }
    split; [exact Hin | exact (In_errors_not_ok _ _ Hin)].
  - intros Hbig.
    assert (Hin : In ([Key "north_angle"], NumberNotLtError 360)
                     (errors_of (Model_parse_obj obj))).
    { rewrite Herr, number_size_validator_spec.
      destruct Hbig as [-> | [q [-> Hq]]]; [left; reflexivity|].
      assert (H0 : Qle_bool 0 q = true).
      { apply Qle_bool_iff. eapply Qle_trans; [|exact Hq]. discriminate. }
      rewrite H0. apply Qle_bool_iff in Hq. rewrite Hq. left; reflexivity. }
    split; [exact Hin | exact (In_errors_not_ok _ _ Hin)].
Qed.

(** An absent required field is reported as missing under its key. *)
Ltac missing_field k :=
  let obj := fresh "obj" in
  let Habs := fresh "Habs" in
  let Hin := fresh "Hin" in
  intros obj Habs;
  match goal with
  | |- In _ (errors_of (?parse _)) /\ _ =>
      assert (Hin : In ([Key k], MissingError) (errors_of (parse obj)));
      [ rewrite In_errors_at; unfold parse; field_errors; rewrite Habs;
        left; reflexivity
      | split; [exact Hin | exact (In_errors_not_ok _ _ Hin)] ]
  end.

(** C4, as the code has it.  The [properties] envelope is required on each
    of Shade, Door, Aperture, Face, Room and Model.  Inside the envelopes of
    Shade, Door, Aperture and Face the [energy] payload is optional: without
    it, the envelope is accepted whenever its [type] is.  Inside the
    envelopes of Room and of Model the [energy] payload is required. *)
Theorem properties_envelope :
  ((forall obj : ShadeObj, ShadeObj_properties obj = None ->
      In ([Key "properties"], MissingError) (errors_of (Shade_parse_obj obj))
      /\ is_ok (Shade_parse_obj obj) = false)
   /\ (forall obj : DoorObj, DoorObj_properties obj = None ->
      In ([Key "properties"], MissingError) (errors_of (Door_parse_obj obj))
      /\ is_ok (Door_parse_obj obj) = false)
   /\ (forall obj : ApertureObj, ApertureObj_properties obj = None ->
      In ([Key "properties"], MissingError) (errors_of (Aperture_parse_obj obj))
      /\ is_ok (Aperture_parse_obj obj) = false)
   /\ (forall obj : FaceObj, FaceObj_properties obj = None ->
      In ([Key "properties"], MissingError) (errors_of (Face_parse_obj obj))
      /\ is_ok (Face_parse_obj obj) = false)
   /\ (forall obj : RoomObj, RoomObj_properties obj = None ->
      In ([Key "properties"], MissingError) (errors_of (Room_parse_obj obj))
      /\ is_ok (Room_parse_obj obj) = false)
   /\ (forall obj : ModelObj, ModelObj_properties obj = None ->
      In ([Key "properties"], MissingError) (errors_of (Model_parse_obj obj))
      /\ is_ok (Model_parse_obj obj) = false))
  /\ ((forall obj : ShadePropertiesAbridgedObj,
      ShadePropertiesAbridgedObj_energy obj = None ->
      is_ok (ShadePropertiesAbridged_parse_obj obj) =
      is_ok (with_default "type" (ShadePropertiesAbridgedObj_type obj)
               "ShadePropertiesAbridged" (constr "ShadePropertiesAbridged")))
   /\ (forall obj : DoorPropertiesAbridgedObj,
      DoorPropertiesAbridgedObj_energy obj = None ->
      is_ok (DoorPropertiesAbridged_parse_obj obj) =
      is_ok (with_default "type" (DoorPropertiesAbridgedObj_type obj)
               "DoorPropertiesAbridged" (constr "DoorPropertiesAbridged")))
   /\ (forall obj : AperturePropertiesAbridgedObj,
      AperturePropertiesAbridgedObj_energy obj = None ->
      is_ok (AperturePropertiesAbridged_parse_obj obj) =
      is_ok (with_default "type" (AperturePropertiesAbridgedObj_type obj)
               "AperturePropertiesAbridged" (constr "AperturePropertiesAbridged")))
   /\ (forall obj : FacePropertiesAbridgedObj,
      FacePropertiesAbridgedObj_energy obj = None ->
      is_ok (FacePropertiesAbridged_parse_obj obj) =
      is_ok (with_default "type" (FacePropertiesAbridgedObj_type obj)
               "FacePropertiesAbridged" (constr "FacePropertiesAbridged"))))
  /\ ((forall obj : RoomPropertiesAbridgedObj,
      RoomPropertiesAbridgedObj_energy obj = None ->
      In ([Key "energy"], MissingError) (errors_of (RoomPropertiesAbridged_parse_obj obj))
      /\ is_ok (RoomPropertiesAbridged_parse_obj obj) = false)
   /\ (forall obj : ModelPropertiesObj,
      ModelPropertiesObj_energy obj = None ->
      In ([Key "energy"], MissingError) (errors_of (ModelProperties_parse_obj obj))
      /\ is_ok (ModelProperties_parse_obj obj) = false)).
Proof.
  split; [|split].
  - split; [|split; [|split; [|split; [|split]]]]; missing_field "properties".
  - split; [|split; [|split]]; intros obj Habs;
      [ unfold ShadePropertiesAbridged_parse_obj
      | unfold DoorPropertiesAbridged_parse_obj
      | unfold AperturePropertiesAbridged_parse_obj
      | unfold FacePropertiesAbridged_parse_obj ];
      rewrite is_ok_ap, is_ok_fmap, Habs; apply andb_true_r.
  - split; missing_field "energy".
Qed.



(** ** Serialising what was constructed *)

Lemma required_agrees (A B C : Type) (k : string) (v : option A)
    (validate : A -> Result B) (g : B -> C) (h : A -> C) (b : B) :
  agrees validate g h -> required k v validate = Ok b -> Some (g b) = option_map h v.
Proof.
  intros Hag H. apply required_Ok in H. destruct H as [a [-> H]].
  simpl. f_equal. exact (Hag _ _ H).
Qed.

Lemma required_keeps (A : Type) (k : string) (v : option A)
    (validate : A -> Result A) (b : A) :
  keeps validate -> required k v validate = Ok b -> Some b = v.
Proof.
  intros Hk H. apply required_Ok in H. destruct H as [a [-> H]].
  f_equal. exact (Hk _ _ H).
Qed.

Lemma optional_agrees (A B C : Type) (k : string) (v : option A)
    (validate : A -> Result B) (g : B -> C) (h : A -> C) (ob : option B) :
  agrees validate g h -> optional k v validate = Ok ob ->
  option_map g ob = option_map h v.
Proof.
  intros Hag H. apply optional_Ok in H.
  destruct H as [[-> ->] | [a [b [-> [H ->]]]]]; [reflexivity|].
  simpl. f_equal. exact (Hag _ _ H).
Qed.

Lemma optional_keeps (A : Type) (k : string) (v : option A)
    (validate : A -> Result A) (ob : option A) :
  keeps validate -> optional k v validate = Ok ob -> ob = v.
Proof.
  intros Hk H. apply optional_Ok in H.
  destruct H as [[-> ->] | [a [b [-> [H ->]]]]]; [reflexivity|].
  f_equal. exact (Hk _ _ H).
Qed.

Lemma with_default_keeps (A : Type) (k : string) (v : option A) (d : A)
    (validate : A -> Result A) (b : A) :
  keeps validate -> with_default k v d validate = Ok b -> Some b = or_default v d.
Proof.
  intros Hk H. apply with_default_Ok in H.
  destruct H as [[-> ->] | [a [-> H]]]; [reflexivity|].
  simpl. f_equal. exact (Hk _ _ H).
Qed.

Lemma List_agrees (A B C : Type) (item : A -> Result B) (g : B -> C) (h : A -> C) :
  agrees item g h -> agrees (List_ item) (map g) (map h).
Proof.
  intros Hag l l' H. apply list_items_Ok in H.
  exact (Forall2_map_eq g h Hag H).
Qed.

Lemma conlist_agrees (A B C : Type) (lo hi : option nat) (item : A -> Result B)
    (g : B -> C) (h : A -> C) :
  agrees item g h -> agrees (conlist lo hi item) (map g) (map h).
Proof.
  intros Hag l l' H. apply conlist_Ok in H.
  exact (Forall2_map_eq g h Hag H).
Qed.

Lemma keeps_any (A : Type) : keeps (@any A).
Proof. intros x y H. exact (any_Ok H). Qed.

Lemma keeps_constr (lit : string) : keeps (constr lit).
Proof. intros x y H. exact (constr_Ok _ _ H). Qed.

Lemma keeps_conlist_any (A : Type) (lo hi : option nat) :
  keeps (conlist lo hi (@any A)).
Proof.
  intros l l' H. apply conlist_Ok in H.
  induction H as [|a b l l' Hab _ IH]; [reflexivity|].
  apply any_Ok in Hab. subst. reflexivity.
Qed.

Lemma keeps_name : keeps NamedBaseModel_name.
Proof.
  intros x y. unfold NamedBaseModel_name.
  destruct (valid_name x); intros H; inversion H; reflexivity.
Qed.

Lemma keeps_number_size (ge lt : Z) : keeps (number_size_validator ge lt).
Proof.
  intros x y. unfold number_size_validator.
  destruct (negb (float_ge x ge)); [discriminate|].
  destruct (negb (float_lt x lt)); intros H; inversion H; reflexivity.
Qed.

Lemma keeps_boundary :
  keeps (fun v => and_then (List_ (List_ any) v) check_num_items).
Proof.
  intros x y. rewrite List_points. cbn [and_then]. rewrite check_num_items_spec.
  destruct (forallb has_xyz x); simpl; intros H; inversion H; reflexivity.
Qed.

Lemma keeps_holes :
  keeps (fun v => and_then (List_ (List_ (List_ any)) v) check_num_items_holes).
Proof.
  intros x y. rewrite List_loops. cbn [and_then]. rewrite check_num_items_holes_spec.
  destruct (forallb (forallb has_xyz) x); simpl; intros H; inversion H; reflexivity.
Qed.

Lemma keeps_bc (union : BoundaryCondition -> Result BoundaryCondition)
    (validator : BoundaryCondition -> Outcome BoundaryCondition) :
  keeps union ->
  (forall v v', validator v = Return v' -> v' = v) ->
  keeps (fun v => and_then (union v) validator).
Proof.
  intros Hu Hv x y H. apply and_then_Ok in H. destruct H as [a [Ha Hy]].
  apply Hu in Ha. apply Hv in Hy. congruence.
Qed.

Lemma keeps_Union_Outdoors_Surface : keeps Union_Outdoors_Surface.
Proof. intros [| | |objs] y H; inversion H; reflexivity. Qed.

Lemma keeps_Union_all : keeps Union_Ground_Outdoors_Adiabatic_Surface.
Proof. intros x y H; inversion H; reflexivity. Qed.

Lemma suface_bc_objects_returns (k : nat) (msg : string) (v v' : BoundaryCondition) :
  ((if (bc_type v =? "Surface")%string
    then assert (length (boundary_condition_objects v) =? k) msg
    else Return tt) ;; Return v) = Return v' -> v' = v.
Proof.
  destruct (bc_type v =? "Surface")%string; simpl.
  - unfold assert. destruct (length (boundary_condition_objects v) =? k); simpl;
      intros H; inversion H; reflexivity.
  - intros H; inversion H; reflexivity.
Qed.

Lemma FaceType_agrees : agrees FaceType_validate FaceType_value (fun s => s).
Proof.
  intros s t. unfold FaceType_validate.
  repeat match goal with
         | |- context [(s =? ?lit)%string] =>
             destruct (String.eqb_spec s lit) as [->|_]
         end; intros H; inversion H; reflexivity.
Qed.

Create HintDb roundtrip.

#[local] Hint Resolve keeps_any keeps_constr keeps_conlist_any keeps_name
  keeps_number_size keeps_boundary keeps_holes keeps_Union_Outdoors_Surface
  keeps_Union_all List_agrees conlist_agrees FaceType_agrees : roundtrip.

Lemma required_agrees_same (A B : Type) (k : string) (v : option A)
    (validate : A -> Result B) (g : B -> A) (b : B) :
  agrees validate g (fun x => x) -> required k v validate = Ok b -> Some (g b) = v.
Proof.
  intros Hag H. apply required_Ok in H. destruct H as [a [-> H]].
  f_equal. exact (Hag _ _ H).
Qed.

Lemma display_name_roundtrip (k k' : string) (vn vd : option string)
    (n : string) (d : option string) :
  required k vn NamedBaseModel_name = Ok n ->
  optional k' vd any = Ok d ->
  Some (NamedBaseModel_display_name n d) = display_name_or vd vn.
Proof.
  intros Hn Hd.
  eapply required_keeps in Hn; [|exact keeps_name].
  eapply optional_keeps in Hd; [|apply keeps_any]. subst.
  destruct vd; reflexivity.
Qed.

Lemma keeps_Door_bc :
  keeps (fun v => and_then (Union_Outdoors_Surface v) Door_suface_bc_objects).
Proof.
  apply keeps_bc; [exact keeps_Union_Outdoors_Surface|].
  intros v v'. apply suface_bc_objects_returns.
Qed.

Lemma keeps_Aperture_bc :
  keeps (fun v => and_then (Union_Outdoors_Surface v) Aperture_suface_bc_objects).
Proof.
  apply keeps_bc; [exact keeps_Union_Outdoors_Surface|].
  intros v v'. apply suface_bc_objects_returns.
Qed.

Lemma keeps_Face_bc :
  keeps (fun v => and_then (Union_Ground_Outdoors_Adiabatic_Surface v)
                    Face_suface_bc_objects).
Proof.
  apply keeps_bc; [exact keeps_Union_all|].
  intros v v'. apply suface_bc_objects_returns.
Qed.

#[local] Hint Resolve keeps_Door_bc keeps_Aperture_bc keeps_Face_bc : roundtrip.

(** One field of the serialised object against the same field of the data
    with its defaults. *)
Ltac field_roundtrip :=
  first
    [ solve [eapply display_name_roundtrip; eassumption]
    | solve [eapply with_default_keeps; [|eassumption]; eauto with roundtrip]
    | solve [eapply required_keeps; [|eassumption]; eauto with roundtrip]
    | solve [eapply optional_keeps; [|eassumption]; eauto with roundtrip]
    | solve [eapply required_agrees_same; [|eassumption]; eauto with roundtrip]
    | solve [eapply required_agrees; [|eassumption]; eauto with roundtrip]
    | solve [eapply optional_agrees; [|eassumption]; eauto with roundtrip] ].

Lemma Plane_roundtrip : agrees Plane_parse_obj Plane_dict Plane_with_defaults.
Proof.
  intros obj p H. unfold Plane_parse_obj in H. invert_ok H.
  unfold Plane_dict, Plane_with_defaults; cbn -[or_default].
  f_equal; field_roundtrip.
Qed.

#[local] Hint Resolve Plane_roundtrip : roundtrip.

Lemma Face3D_roundtrip : agrees Face3D_parse_obj Face3D_dict Face3D_with_defaults.
Proof.
  intros obj p H. unfold Face3D_parse_obj in H. invert_ok H.
  unfold Face3D_dict, Face3D_with_defaults; cbn -[or_default option_map].
  f_equal; field_roundtrip.
Qed.

#[local] Hint Resolve Face3D_roundtrip : roundtrip.

(** The serialised object is the data with its defaults, field by field. *)
Ltac roundtrip_fields :=
  cbn -[or_default option_map display_name_or NamedBaseModel_display_name map];
  f_equal; field_roundtrip.

Lemma ShadePropertiesAbridged_roundtrip :
  agrees ShadePropertiesAbridged_parse_obj ShadePropertiesAbridged_dict
    ShadePropertiesAbridged_with_defaults.
Proof.
  intros obj p H. unfold ShadePropertiesAbridged_parse_obj in H. invert_ok H.
  unfold ShadePropertiesAbridged_dict, ShadePropertiesAbridged_with_defaults.
  roundtrip_fields.
Qed.

Lemma DoorPropertiesAbridged_roundtrip :
  agrees DoorPropertiesAbridged_parse_obj DoorPropertiesAbridged_dict
    DoorPropertiesAbridged_with_defaults.
Proof.
  intros obj p H. unfold DoorPropertiesAbridged_parse_obj in H. invert_ok H.
  unfold DoorPropertiesAbridged_dict, DoorPropertiesAbridged_with_defaults.
  roundtrip_fields.
Qed.

Lemma AperturePropertiesAbridged_roundtrip :
  agrees AperturePropertiesAbridged_parse_obj AperturePropertiesAbridged_dict
    AperturePropertiesAbridged_with_defaults.
Proof.
  intros obj p H. unfold AperturePropertiesAbridged_parse_obj in H. invert_ok H.
  unfold AperturePropertiesAbridged_dict, AperturePropertiesAbridged_with_defaults.
  roundtrip_fields.
Qed.

Lemma FacePropertiesAbridged_roundtrip :
  agrees FacePropertiesAbridged_parse_obj FacePropertiesAbridged_dict
    FacePropertiesAbridged_with_defaults.
Proof.
  intros obj p H. unfold FacePropertiesAbridged_parse_obj in H. invert_ok H.
  unfold FacePropertiesAbridged_dict, FacePropertiesAbridged_with_defaults.
  roundtrip_fields.
Qed.

Lemma RoomPropertiesAbridged_roundtrip :
  agrees RoomPropertiesAbridged_parse_obj RoomPropertiesAbridged_dict
    RoomPropertiesAbridged_with_defaults.
Proof.
  intros obj p H. unfold RoomPropertiesAbridged_parse_obj in H. invert_ok H.
  unfold RoomPropertiesAbridged_dict, RoomPropertiesAbridged_with_defaults.
  roundtrip_fields.
Qed.

Lemma ModelProperties_roundtrip :
  agrees ModelProperties_parse_obj ModelProperties_dict ModelProperties_with_defaults.
Proof.
  intros obj p H. unfold ModelProperties_parse_obj in H. invert_ok H.
  unfold ModelProperties_dict, ModelProperties_with_defaults.
  roundtrip_fields.
Qed.

#[local] Hint Resolve ShadePropertiesAbridged_roundtrip DoorPropertiesAbridged_roundtrip
  AperturePropertiesAbridged_roundtrip FacePropertiesAbridged_roundtrip
  RoomPropertiesAbridged_roundtrip ModelProperties_roundtrip : roundtrip.

Lemma Shade_roundtrip : agrees Shade_parse_obj Shade_dict Shade_with_defaults.
Proof.
  intros obj s H. unfold Shade_parse_obj in H. invert_ok H.
  unfold Shade_dict, Shade_with_defaults, Shade_init.
  roundtrip_fields.
Qed.

#[local] Hint Resolve Shade_roundtrip : roundtrip.

Lemma Door_roundtrip : agrees Door_parse_obj Door_dict Door_with_defaults.
Proof.
  intros obj d H. unfold Door_parse_obj in H. invert_ok H.
  unfold Door_dict, Door_with_defaults, Door_init.
  roundtrip_fields.
Qed.

#[local] Hint Resolve Door_roundtrip : roundtrip.

Lemma Aperture_roundtrip : agrees Aperture_parse_obj Aperture_dict Aperture_with_defaults.
Proof.
  intros obj a H. unfold Aperture_parse_obj in H. invert_ok H.
  unfold Aperture_dict, Aperture_with_defaults, Aperture_init.
  roundtrip_fields.
Qed.

#[local] Hint Resolve Aperture_roundtrip : roundtrip.

Lemma Face_roundtrip : agrees Face_parse_obj Face_dict Face_with_defaults.
Proof.
  intros obj f H. unfold Face_parse_obj in H. invert_ok H.
  unfold Face_dict, Face_with_defaults, Face_init.
  roundtrip_fields.
Qed.

#[local] Hint Resolve Face_roundtrip : roundtrip.

Lemma Room_roundtrip : agrees Room_parse_obj Room_dict Room_with_defaults.
Proof.
  intros obj r H. unfold Room_parse_obj in H. invert_ok H.
  unfold Room_dict, Room_with_defaults, Room_init.
  roundtrip_fields.
Qed.

#[local] Hint Resolve Room_roundtrip : roundtrip.


(** ** Further properties of the schema *)

(** *** Locations of the errors of nested values *)

Lemma In_list_items (A B : Type) (item : A -> Result B) (v : list A) :
  forall (k i : nat) (l : Loc) (e : ErrorMsg),
    In (Index i :: l, e) (errors_of (list_items item k v)) <->
    exists a, k <= i /\ nth_error v (i - k) = Some a /\ In (l, e) (errors_of (item a)).
Proof.
  induction v as [|a rest IH]; intros k i l e.
  - simpl. split; [intros [] |].
    intros [a [_ [H _]]]. destruct (i - k); discriminate.
  - cbn [list_items]. rewrite errors_of_ap, errors_of_fmap, in_app_iff, In_at_loc, IH.
    split.
    + intros [[l' [Heq Hin]] | [a' [Hle [Hnth Hin]]]].
      * inversion Heq; subst. exists a. rewrite Nat.sub_diag. auto.
      * exists a'. split; [lia|]. split; [|exact Hin].
        replace (i - k) with (S (i - S k)) by lia. exact Hnth.
    + intros [a' [Hle [Hnth Hin]]].
      destruct (Nat.eq_dec i k) as [->|Hne].
      * rewrite Nat.sub_diag in Hnth. inversion Hnth; subst.
        left. exists l. auto.
      * right. exists a'. split; [lia|]. split; [|exact Hin].
        replace (i - k) with (S (i - S k)) in Hnth by lia. exact Hnth.
Qed.

Lemma In_List (A B : Type) (item : A -> Result B) (v : list A)
    (i : nat) (l : Loc) (e : ErrorMsg) :
  In (Index i :: l, e) (errors_of (List_ item v)) <->
  exists a, nth_error v i = Some a /\ In (l, e) (errors_of (item a)).
Proof.
  unfold List_. rewrite In_list_items, Nat.sub_0_r. split.
  - intros [a [_ H]]. eauto.
  - intros [a H]. exists a. split; [lia | exact H].
Qed.

(** *** Plane *)

Lemma is_ok_type (k lit : string) (t : option string) :
  is_ok (with_default k t lit (constr lit)) = true <-> type_matches lit t.
Proof.
  destruct t as [s|]; simpl; [|tauto].
  rewrite is_ok_at_loc. unfold constr, re_match_literal.
  destruct (String.eqb_spec s lit) as [Heq|Hne]; simpl.
  - tauto.
  - destruct (String.eqb_spec s (lit ++ newline)) as [Heq'|Hne']; simpl.
    + tauto.
    + split; [discriminate | intros [H|H]; contradiction].
Qed.

Lemma conlist3_spec (A : Type) (v : list A) :
  conlist (Some 3) (Some 3) any v =
  if length v <? 3 then ValidationError [([], ListMinLengthError 3)]
  else if 3 <? length v then ValidationError [([], ListMaxLengthError 3)]
  else Ok v.
Proof.
  unfold conlist, list_length_validator.
  destruct (length v <? 3); simpl; [reflexivity|].
  destruct (3 <? length v); simpl; [reflexivity|].
  apply list_items_any.
Qed.

Lemma is_ok_conlist3 (A : Type) (v : list A) :
  is_ok (conlist (Some 3) (Some 3) any v) = true <-> length v = 3.
Proof.
  rewrite conlist3_spec.
  destruct (Nat.ltb_spec (length v) 3); simpl; [split; [discriminate | lia]|].
  destruct (Nat.ltb_spec 3 (length v)); simpl; [split; [discriminate | lia]|].
  split; [lia | reflexivity].
Qed.

Lemma is_ok_required (A B : Type) (k : string) (v : option A) (validate : A -> Result B) :
  is_ok (required k v validate) = true <->
  exists a, v = Some a /\ is_ok (validate a) = true.
Proof.
  destruct v as [a|]; simpl.
  - rewrite is_ok_at_loc. split; [eauto|]. intros [a' [H Hok]]. inversion H; subst. exact Hok.
  - split; [discriminate|]. intros [a [H _]]. discriminate.
Qed.

Lemma is_ok_optional (A B : Type) (k : string) (v : option A) (validate : A -> Result B) :
  is_ok (optional k v validate) = true <->
  forall a, v = Some a -> is_ok (validate a) = true.
Proof.
  destruct v as [a|]; simpl.
  - rewrite is_ok_at_loc, is_ok_fmap. split.
    + intros H a' Ha. inversion Ha; subst. exact H.
    + intros H. apply H. reflexivity.
  - split; [intros _ a H; discriminate | reflexivity].
Qed.

(** X1.  A Plane is constructed exactly when its [type] is absent or matches
    [^Plane$], the normal [n] and the origin [o] are present with exactly 3
    values each, and the x-axis [x] is absent or has exactly 3 values. *)
Theorem Plane_constructed_iff (obj : PlaneObj) :
  is_ok (Plane_parse_obj obj) = true <->
  type_matches "Plane" (PlaneObj_type obj)
  /\ (exists n, PlaneObj_n obj = Some n /\ length n = 3)
  /\ (exists o, PlaneObj_o obj = Some o /\ length o = 3)
  /\ (forall x, PlaneObj_x obj = Some x -> length x = 3).
Proof.
  unfold Plane_parse_obj.
  rewrite !is_ok_ap, is_ok_fmap, !andb_true_iff.
  rewrite is_ok_type, !is_ok_required, is_ok_optional.
  split.
  - intros [[[Ht [n [Hn Hn3]]] [o [Ho Ho3]]] Hx].
    apply is_ok_conlist3 in Hn3. apply is_ok_conlist3 in Ho3.
    repeat split; eauto.
    intros x Hx'. apply is_ok_conlist3. exact (Hx x Hx').
  - intros [Ht [[n [Hn Hn3]] [[o [Ho Ho3]] Hx]]].
    repeat split; eauto.
    + exists n. split; [exact Hn | apply is_ok_conlist3; exact Hn3].
    + exists o. split; [exact Ho | apply is_ok_conlist3; exact Ho3].
    + intros x Hx'. apply is_ok_conlist3. exact (Hx x Hx').
Qed.

Lemma conlist3_errors (A : Type) (v : list A) (l : Loc) (e : ErrorMsg) :
  In (l, e) (errors_of (conlist (Some 3) (Some 3) any v)) <->
  l = [] /\ ((length v < 3 /\ e = ListMinLengthError 3)
             \/ (3 < length v /\ e = ListMaxLengthError 3)).
Proof.
  rewrite conlist3_spec.
  destruct (Nat.ltb_spec (length v) 3) as [Hlt|Hge]; simpl.
  - split.
    + intros [H|[]]. inversion H. auto.
    + intros [-> [[_ ->] | [Hgt _]]]; [left; reflexivity | lia].
  - destruct (Nat.ltb_spec 3 (length v)) as [Hgt|Hle]; simpl.
    + split.
      * intros [H|[]]. inversion H. auto.
      * intros [-> [[Hlt _] | [_ ->]]]; [lia | left; reflexivity].
    + split; [intros [] | intros [_ [[Hlt _] | [Hgt _]]]; lia].
Qed.

(** X2.  Each vector of a Plane that is given is checked for its length
    before anything else: with fewer than 3 values the error of
    [min_items=3] is reported under its key, with more than 3 the error of
    [max_items=3], and these are the only errors a vector can have.  An
    absent [n] or [o] is reported as missing, an absent [x] is not. *)
Theorem Plane_vector_errors (obj : PlaneObj) :
  (forall l e,
     In (Key "n" :: l, e) (errors_of (Plane_parse_obj obj)) <->
     l = [] /\
     match PlaneObj_n obj with
     | None => e = MissingError
     | Some v => (length v < 3 /\ e = ListMinLengthError 3)
                 \/ (3 < length v /\ e = ListMaxLengthError 3)
     end)
  /\ (forall l e,
     In (Key "o" :: l, e) (errors_of (Plane_parse_obj obj)) <->
     l = [] /\
     match PlaneObj_o obj with
     | None => e = MissingError
     | Some v => (length v < 3 /\ e = ListMinLengthError 3)
                 \/ (3 < length v /\ e = ListMaxLengthError 3)
     end)
  /\ (forall l e,
     In (Key "x" :: l, e) (errors_of (Plane_parse_obj obj)) <->
     l = [] /\
     match PlaneObj_x obj with
     | None => False
     | Some v => (length v < 3 /\ e = ListMinLengthError 3)
                 \/ (3 < length v /\ e = ListMaxLengthError 3)
     end).
Proof.
  split; [|split]; intros l e; rewrite In_errors_at; unfold Plane_parse_obj;
    field_errors.
  - destruct (PlaneObj_n obj) as [v|]; [apply conlist3_errors|].
    simpl. split.
    + intros [H|[]]. inversion H. auto.
    + intros [-> ->]. left; reflexivity.
  - destruct (PlaneObj_o obj) as [v|]; [apply conlist3_errors|].
    simpl. split.
    + intros [H|[]]. inversion H. auto.
    + intros [-> ->]. left; reflexivity.
  - destruct (PlaneObj_x obj) as [v|]; [apply conlist3_errors|].
    simpl. tauto.
Qed.

(** *** Face3D *)

Lemma forallb_has_xyz_true (b : list (list float)) :
  forallb has_xyz b = true <-> forall pt, In pt b -> length pt = 3.
Proof.
  rewrite forallb_forall. unfold has_xyz.
  split; intros H pt Hin; [apply Nat.eqb_eq | apply Nat.eqb_eq]; auto.
Qed.

Lemma forallb_holes_true (h : list (list (list float))) :
  forallb (forallb has_xyz) h = true <->
  forall loop pt, In loop h -> In pt loop -> length pt = 3.
Proof.
  rewrite forallb_forall. split.
  - intros H loop pt Hl Hp. apply (proj1 (forallb_has_xyz_true loop) (H loop Hl)). exact Hp.
  - intros H loop Hl. apply forallb_has_xyz_true. intros pt Hp. eauto.
Qed.

Lemma is_ok_boundary (b : list (list float)) :
  is_ok (and_then (List_ (List_ any) b) check_num_items) = true <->
  forall pt, In pt b -> length pt = 3.
Proof.
  rewrite List_points. cbn [and_then]. rewrite check_num_items_spec.
  rewrite <- forallb_has_xyz_true.
  destruct (forallb has_xyz b); simpl; split; auto; discriminate.
Qed.

Lemma is_ok_holes (h : list (list (list float))) :
  is_ok (and_then (List_ (List_ (List_ any)) h) check_num_items_holes) = true <->
  forall loop pt, In loop h -> In pt loop -> length pt = 3.
Proof.
  rewrite List_loops. cbn [and_then]. rewrite check_num_items_holes_spec.
  rewrite <- forallb_holes_true.
  destruct (forallb (forallb has_xyz) h); simpl; split; auto; discriminate.
Qed.


(** *** Errors of nested objects *)

(** The errors under the key of a nested field, in the errors of a
    constructor. *)
Ltac nested_errors H :=
  let l := fresh "l" in
  let e := fresh "e" in
  intros l e; rewrite In_errors_at;
  match goal with
  | |- In _ (errors_at _ (errors_of (?parse _))) <-> _ => unfold parse
  end;
  field_errors; rewrite H; reflexivity.

(** X4.  The errors of a nested object are reported by its owner under the
    key of the field, and nothing else is: under [plane] a Face3D reports
    exactly the errors of its Plane, under [geometry] a Shade, Door, Aperture
    or Face reports exactly the errors of its Face3D, and under [properties]
    each of the six entities reports exactly the errors of its envelope. *)
Theorem nested_object_errors :
  (forall (obj : Face3DObj) p, Face3DObj_plane obj = Some p ->
     reports_nested (errors_of (Face3D_parse_obj obj)) "plane" (Plane_parse_obj p))
  /\ (forall (obj : ShadeObj) g, ShadeObj_geometry obj = Some g ->
     reports_nested (errors_of (Shade_parse_obj obj)) "geometry" (Face3D_parse_obj g))
  /\ (forall (obj : DoorObj) g, DoorObj_geometry obj = Some g ->
     reports_nested (errors_of (Door_parse_obj obj)) "geometry" (Face3D_parse_obj g))
  /\ (forall (obj : ApertureObj) g, ApertureObj_geometry obj = Some g ->
     reports_nested (errors_of (Aperture_parse_obj obj)) "geometry" (Face3D_parse_obj g))
  /\ (forall (obj : FaceObj) g, FaceObj_geometry obj = Some g ->
     reports_nested (errors_of (Face_parse_obj obj)) "geometry" (Face3D_parse_obj g))
  /\ (forall (obj : ShadeObj) p, ShadeObj_properties obj = Some p ->
     reports_nested (errors_of (Shade_parse_obj obj)) "properties"
       (ShadePropertiesAbridged_parse_obj p))
  /\ (forall (obj : DoorObj) p, DoorObj_properties obj = Some p ->
     reports_nested (errors_of (Door_parse_obj obj)) "properties"
       (DoorPropertiesAbridged_parse_obj p))
  /\ (forall (obj : ApertureObj) p, ApertureObj_properties obj = Some p ->
     reports_nested (errors_of (Aperture_parse_obj obj)) "properties"
       (AperturePropertiesAbridged_parse_obj p))
  /\ (forall (obj : FaceObj) p, FaceObj_properties obj = Some p ->
     reports_nested (errors_of (Face_parse_obj obj)) "properties"
       (FacePropertiesAbridged_parse_obj p))
  /\ (forall (obj : RoomObj) p, RoomObj_properties obj = Some p ->
     reports_nested (errors_of (Room_parse_obj obj)) "properties"
       (RoomPropertiesAbridged_parse_obj p))
  /\ (forall (obj : ModelObj) p, ModelObj_properties obj = Some p ->
     reports_nested (errors_of (Model_parse_obj obj)) "properties"
       (ModelProperties_parse_obj p)).
Proof.
  repeat match goal with |- _ /\ _ => split end;
    intros obj x H; nested_errors H.
Qed.

(** The errors under a key and an index, in the errors of a constructor
    with a list under that key. *)
Ltac item_errors H :=
  let i := fresh "i" in
  let l := fresh "l" in
  let e := fresh "e" in
  intros i l e; rewrite In_errors_at;
  match goal with
  | |- In _ (errors_at _ (errors_of (?parse _))) <-> _ => unfold parse
  end;
  field_errors; rewrite H; rewrite ?conlist_min_enough by assumption;
  apply In_List.

Lemma Model_rooms_items (obj : ModelObj) (rooms : list RoomObj) :
  ModelObj_rooms obj = Some rooms ->
  reports_items (errors_of (Model_parse_obj obj)) "rooms" Room_parse_obj rooms.
Proof. intros H. item_errors H. Qed.

Lemma Room_faces_items (obj : RoomObj) (faces : list FaceObj) :
  RoomObj_faces obj = Some faces -> 4 <= length faces ->
  reports_items (errors_of (Room_parse_obj obj)) "faces" Face_parse_obj faces.
Proof. intros H Hlen. item_errors H. Qed.

Lemma Face_apertures_items (obj : FaceObj) (apertures : list ApertureObj) :
  FaceObj_apertures obj = Some apertures ->
  reports_items (errors_of (Face_parse_obj obj)) "apertures" Aperture_parse_obj apertures.
Proof. intros H. item_errors H. Qed.

(** X5.  The errors of an item of a list are reported by the owner of the
    list under the key of the list and the index of the item, and nothing
    else is reported there: so for the rooms and the four lists of orphans of
    a Model, the faces (when there are at least 4) and the shades of a Room,
    the apertures, doors and shades of a Face and the shades of an
    Aperture. *)
Theorem list_item_errors :
  ((forall (obj : ModelObj) v, ModelObj_rooms obj = Some v ->
      reports_items (errors_of (Model_parse_obj obj)) "rooms" Room_parse_obj v)
   /\ (forall (obj : ModelObj) v, ModelObj_orphaned_faces obj = Some v ->
      reports_items (errors_of (Model_parse_obj obj)) "orphaned_faces" Face_parse_obj v)
   /\ (forall (obj : ModelObj) v, ModelObj_orphaned_shades obj = Some v ->
      reports_items (errors_of (Model_parse_obj obj)) "orphaned_shades" Shade_parse_obj v)
   /\ (forall (obj : ModelObj) v, ModelObj_orphaned_apertures obj = Some v ->
      reports_items (errors_of (Model_parse_obj obj)) "orphaned_apertures"
        Aperture_parse_obj v)
   /\ (forall (obj : ModelObj) v, ModelObj_orphaned_doors obj = Some v ->
      reports_items (errors_of (Model_parse_obj obj)) "orphaned_doors" Door_parse_obj v))
  /\ ((forall (obj : RoomObj) v, RoomObj_faces obj = Some v -> 4 <= length v ->
      reports_items (errors_of (Room_parse_obj obj)) "faces" Face_parse_obj v)
   /\ (forall (obj : RoomObj) v, RoomObj_indoor_shades obj = Some v ->
      reports_items (errors_of (Room_parse_obj obj)) "indoor_shades" Shade_parse_obj v)
   /\ (forall (obj : RoomObj) v, RoomObj_outdoor_shades obj = Some v ->
      reports_items (errors_of (Room_parse_obj obj)) "outdoor_shades" Shade_parse_obj v))
  /\ ((forall (obj : FaceObj) v, FaceObj_apertures obj = Some v ->
      reports_items (errors_of (Face_parse_obj obj)) "apertures" Aperture_parse_obj v)
   /\ (forall (obj : FaceObj) v, FaceObj_doors obj = Some v ->
      reports_items (errors_of (Face_parse_obj obj)) "doors" Door_parse_obj v)
   /\ (forall (obj : FaceObj) v, FaceObj_indoor_shades obj = Some v ->
      reports_items (errors_of (Face_parse_obj obj)) "indoor_shades" Shade_parse_obj v)
   /\ (forall (obj : FaceObj) v, FaceObj_outdoor_shades obj = Some v ->
      reports_items (errors_of (Face_parse_obj obj)) "outdoor_shades" Shade_parse_obj v))
  /\ ((forall (obj : ApertureObj) v, ApertureObj_indoor_shades obj = Some v ->
      reports_items (errors_of (Aperture_parse_obj obj)) "indoor_shades"
        Shade_parse_obj v)
   /\ (forall (obj : ApertureObj) v, ApertureObj_outdoor_shades obj = Some v ->
      reports_items (errors_of (Aperture_parse_obj obj)) "outdoor_shades"
        Shade_parse_obj v)).
Proof.
  repeat match goal with |- _ /\ _ => split end;
    try (intros obj v H; item_errors H).
  intros obj v H Hlen. item_errors H.
Qed.

(** X6.  An error of an Aperture of a Face of a Room of a Model is an error
    of the Model, under the path [rooms[i].faces[j].apertures[k]] that leads
    to the Aperture, and the Model is not constructed. *)
Theorem Model_aperture_error_path (model : ModelObj) (rooms : list RoomObj)
    (i : nat) (room : RoomObj) (faces : list FaceObj) (j : nat) (face : FaceObj)
    (apertures : list ApertureObj) (k : nat) (aperture : ApertureObj)
    (l : Loc) (e : ErrorMsg) :
  ModelObj_rooms model = Some rooms -> nth_error rooms i = Some room ->
  RoomObj_faces room = Some faces -> 4 <= length faces ->
  nth_error faces j = Some face ->
  FaceObj_apertures face = Some apertures -> nth_error apertures k = Some aperture ->
  In (l, e) (errors_of (Aperture_parse_obj aperture)) ->
  In (Key "rooms" :: Index i :: Key "faces" :: Index j
        :: Key "apertures" :: Index k :: l, e)
     (errors_of (Model_parse_obj model))
  /\ is_ok (Model_parse_obj model) = false.
Proof.
  intros Hrooms Hi Hfaces Hlen Hj Haps Hk Hin.
  assert (H : In (Key "rooms" :: Index i :: Key "faces" :: Index j
                    :: Key "apertures" :: Index k :: l, e)
                 (errors_of (Model_parse_obj model))).
  { apply (Model_rooms_items _ Hrooms). exists room. split; [exact Hi|].
    apply (Room_faces_items _ Hfaces Hlen). exists face. split; [exact Hj|].
    apply (Face_apertures_items _ Haps). exists aperture. split; assumption. }
  split; [exact H | exact (In_errors_not_ok _ _ H)].
Qed.

(** *** The lists of a constructed object *)

Lemma optional_list_constructed (A B : Type) (k : string) (item : A -> Result B)
    (v : option (list A)) (v' : option (list B)) :
  optional k v (List_ item) = Ok v' -> constructed_from item v v'.
Proof.
  intros H. apply optional_Ok in H.
  destruct H as [[-> ->] | [l [l' [-> [H ->]]]]]; simpl; [exact I|].
  exact (list_items_Ok _ _ _ H).
Qed.

Lemma conlist_min_Ok (A B : Type) (lo : nat) (item : A -> Result B)
    (l : list A) (l' : list B) :
  conlist (Some lo) None item l = Ok l' ->
  lo <= length l /\ Forall2 (fun a b => item a = Ok b) l l'.
Proof.
  intros H. split; [|exact (conlist_Ok _ _ _ _ H)].
  destruct (Nat.le_gt_cases lo (length l)) as [Hle|Hgt]; [exact Hle|].
  rewrite conlist_min_short in H by exact Hgt. discriminate.
Qed.

Lemma Forall2_length_eq (A B : Type) (P : A -> B -> Prop) (l : list A) (l' : list B) :
  Forall2 P l l' -> length l' = length l.
Proof. intros H. induction H; simpl; congruence. Qed.

(** The lists of a constructed object, field by field. *)
Ltac lists_constructed :=
  repeat match goal with
         | |- _ /\ _ => split
         | H : optional _ ?v (List_ ?item) = Ok ?v' |- constructed_from ?item ?v ?v' =>
             exact (optional_list_constructed _ _ _ H)
         end.

(** X7.  Every list of a constructed object comes from the list of the data
    item by item: it is absent when the list of the data is, and otherwise
    has the same length and holds, in the same order, the objects constructed
    from the items of the data, each of which is therefore accepted on its
    own.  The faces of a constructed Room are at least 4. *)
Theorem children_constructed :
  (forall obj m, Model_parse_obj obj = Ok m ->
     constructed_from Room_parse_obj (ModelObj_rooms obj) (Model_rooms m)
     /\ constructed_from Face_parse_obj (ModelObj_orphaned_faces obj)
          (Model_orphaned_faces m)
     /\ constructed_from Shade_parse_obj (ModelObj_orphaned_shades obj)
          (Model_orphaned_shades m)
     /\ constructed_from Aperture_parse_obj (ModelObj_orphaned_apertures obj)
          (Model_orphaned_apertures m)
     /\ constructed_from Door_parse_obj (ModelObj_orphaned_doors obj)
          (Model_orphaned_doors m))
  /\ (forall obj r, Room_parse_obj obj = Ok r ->
     constructed_from Face_parse_obj (RoomObj_faces obj) (Some (Room_faces r))
     /\ 4 <= length (Room_faces r)
     /\ constructed_from Shade_parse_obj (RoomObj_indoor_shades obj)
          (Room_indoor_shades r)
     /\ constructed_from Shade_parse_obj (RoomObj_outdoor_shades obj)
          (Room_outdoor_shades r))
  /\ (forall obj f, Face_parse_obj obj = Ok f ->
     constructed_from Aperture_parse_obj (FaceObj_apertures obj) (Face_apertures f)
     /\ constructed_from Door_parse_obj (FaceObj_doors obj) (Face_doors f)
     /\ constructed_from Shade_parse_obj (FaceObj_indoor_shades obj)
          (Face_indoor_shades f)
     /\ constructed_from Shade_parse_obj (FaceObj_outdoor_shades obj)
          (Face_outdoor_shades f))
  /\ (forall obj a, Aperture_parse_obj obj = Ok a ->
     constructed_from Shade_parse_obj (ApertureObj_indoor_shades obj)
       (Aperture_indoor_shades a)
     /\ constructed_from Shade_parse_obj (ApertureObj_outdoor_shades obj)
          (Aperture_outdoor_shades a)).
Proof.
  split; [|split; [|split]].
  - intros obj m H. unfold Model_parse_obj in H. invert_ok H.
    cbn [Model_init Model_rooms Model_orphaned_faces Model_orphaned_shades
         Model_orphaned_apertures Model_orphaned_doors].
    lists_constructed.
  - intros obj r H. unfold Room_parse_obj in H. invert_ok H.
    cbn [Room_init Room_faces Room_indoor_shades Room_outdoor_shades].
    match goal with
    | Hf : required "faces" _ _ = Ok _ |- _ =>
        apply required_Ok in Hf; destruct Hf as [faces [Hfaces Hf]];
        apply conlist_min_Ok in Hf; destruct Hf as [Hlen Hall]
    end.
    rewrite Hfaces. split; [exact Hall|]. split.
    + rewrite (Forall2_length_eq Hall). exact Hlen.
    + lists_constructed.
  - intros obj f H. unfold Face_parse_obj in H. invert_ok H.
    cbn [Face_init Face_apertures Face_doors Face_indoor_shades Face_outdoor_shades].
    lists_constructed.
  - intros obj a H. unfold Aperture_parse_obj in H. invert_ok H.
    cbn [Aperture_init Aperture_indoor_shades Aperture_outdoor_shades].
    lists_constructed.
Qed.

(** *** Constructing again from the serialised form *)

Lemma keeps_stable (A : Type) (validate : A -> Result A) :
  keeps validate -> stable validate (fun x => x).
Proof.
  intros Hk a b H. rewrite (Hk _ _ H). rewrite (Hk _ _ H) in H. exact H.
Qed.

Lemma required_stable (A B : Type) (k : string) (v : option A)
    (validate : A -> Result B) (g : B -> A) (b : B) :
  stable validate g -> required k v validate = Ok b ->
  required k (Some (g b)) validate = Ok b.
Proof.
  intros Hs H. apply required_Ok in H. destruct H as [a [_ H]].
  simpl. rewrite (Hs _ _ H). reflexivity.
Qed.

Lemma required_stable_same (A : Type) (k : string) (v : option A)
    (validate : A -> Result A) (b : A) :
  keeps validate -> required k v validate = Ok b ->
  required k (Some b) validate = Ok b.
Proof.
  intros Hk H. eapply required_stable in H; [exact H | exact (keeps_stable Hk)].
Qed.

Lemma optional_stable (A B : Type) (k : string) (v : option A)
    (validate : A -> Result B) (g : B -> A) (ob : option B) :
  stable validate g -> optional k v validate = Ok ob ->
  optional k (option_map g ob) validate = Ok ob.
Proof.
  intros Hs H. apply optional_Ok in H.
  destruct H as [[_ ->] | [a [b [_ [H ->]]]]]; [reflexivity|].
  simpl. rewrite (Hs _ _ H). reflexivity.
Qed.

Lemma optional_stable_same (A : Type) (k : string) (v : option A)
    (validate : A -> Result A) (ob : option A) :
  keeps validate -> optional k v validate = Ok ob -> optional k ob validate = Ok ob.
Proof.
  intros Hk H. apply optional_Ok in H.
  destruct H as [[_ ->] | [a [b [_ [H ->]]]]]; [reflexivity|].
  simpl. rewrite (keeps_stable Hk _ H). reflexivity.
Qed.

Lemma with_default_stable_same (A : Type) (k : string) (v : option A) (d : A)
    (validate : A -> Result A) (b : A) :
  keeps validate -> validate d = Ok d -> with_default k v d validate = Ok b ->
  with_default k (Some b) d validate = Ok b.
Proof.
  intros Hk Hd H. apply with_default_Ok in H.
  destruct H as [[_ ->] | [a [_ H]]]; simpl.
  - rewrite Hd. reflexivity.
  - rewrite (keeps_stable Hk _ H). reflexivity.
Qed.

Lemma list_items_stable (A B : Type) (item : A -> Result B) (g : B -> A)
    (l : list A) (l' : list B) :
  stable item g -> Forall2 (fun a b => item a = Ok b) l l' ->
  forall i : nat, list_items item i (map g l') = Ok l'.
Proof.
  intros Hs H. induction H as [|a b l l' Hab _ IH]; intros i; simpl; [reflexivity|].
  rewrite (Hs _ _ Hab), IH. reflexivity.
Qed.

Lemma List_stable (A B : Type) (item : A -> Result B) (g : B -> A) :
  stable item g -> stable (List_ item) (map g).
Proof.
  intros Hs l l' H. apply list_items_Ok in H.
  exact (list_items_stable Hs H 0).
Qed.

Lemma conlist_min_stable (A B : Type) (lo : nat) (item : A -> Result B) (g : B -> A) :
  stable item g -> stable (conlist (Some lo) None item) (map g).
Proof.
  intros Hs l l' H. apply conlist_min_Ok in H. destruct H as [Hlen Hall].
  rewrite conlist_min_enough.
  - exact (list_items_stable Hs Hall 0).
  - rewrite length_map, (Forall2_length_eq Hall). exact Hlen.
Qed.

Lemma FaceType_stable : stable FaceType_validate FaceType_value.
Proof. intros s t _. destruct t; reflexivity. Qed.

Create HintDb reparse.

#[local] Hint Resolve List_stable conlist_min_stable FaceType_stable : reparse.

(** The fields of the serialised object are accepted again, with the values
    they were constructed with. *)
Ltac reparse_fields :=
  repeat match goal with
         | H : required _ _ _ = Ok _ |- _ =>
             first [ eapply required_stable_same in H; [|solve [eauto with roundtrip]]
                   | eapply required_stable in H; [|solve [eauto with reparse]] ];
             rewrite H; clear H
         | H : optional _ _ _ = Ok _ |- _ =>
             first [ eapply optional_stable_same in H; [|solve [eauto with roundtrip]]
                   | eapply optional_stable in H; [|solve [eauto with reparse]] ];
             rewrite H; clear H
         | H : with_default _ _ _ _ = Ok _ |- _ =>
             eapply with_default_stable_same in H;
             [|solve [eauto with roundtrip] | reflexivity];
             rewrite H; clear H
         end;
  reflexivity.

Ltac reparse_class :=
  cbn -[required optional with_default option_map map NamedBaseModel_display_name
        List_ conlist constr any and_then Union_Outdoors_Surface
        Union_Ground_Outdoors_Adiabatic_Surface];
  reparse_fields.

Lemma Plane_reparse : stable Plane_parse_obj Plane_dict.
Proof.
  intros obj p H. unfold Plane_parse_obj in *. invert_ok H.
  unfold Plane_dict. reparse_class.
Qed.

#[local] Hint Resolve Plane_reparse : reparse.

Lemma Face3D_reparse : stable Face3D_parse_obj Face3D_dict.
Proof.
  intros obj g H. unfold Face3D_parse_obj in *. invert_ok H.
  unfold Face3D_dict. reparse_class.
Qed.

#[local] Hint Resolve Face3D_reparse : reparse.

Lemma ShadePropertiesAbridged_reparse :
  stable ShadePropertiesAbridged_parse_obj ShadePropertiesAbridged_dict.
Proof.
  intros obj p H. unfold ShadePropertiesAbridged_parse_obj in *. invert_ok H.
  unfold ShadePropertiesAbridged_dict. reparse_class.
Qed.

Lemma DoorPropertiesAbridged_reparse :
  stable DoorPropertiesAbridged_parse_obj DoorPropertiesAbridged_dict.
Proof.
  intros obj p H. unfold DoorPropertiesAbridged_parse_obj in *. invert_ok H.
  unfold DoorPropertiesAbridged_dict. reparse_class.
Qed.

Lemma AperturePropertiesAbridged_reparse :
  stable AperturePropertiesAbridged_parse_obj AperturePropertiesAbridged_dict.
Proof.
  intros obj p H. unfold AperturePropertiesAbridged_parse_obj in *. invert_ok H.
  unfold AperturePropertiesAbridged_dict. reparse_class.
Qed.

Lemma FacePropertiesAbridged_reparse :
  stable FacePropertiesAbridged_parse_obj FacePropertiesAbridged_dict.
Proof.
  intros obj p H. unfold FacePropertiesAbridged_parse_obj in *. invert_ok H.
  unfold FacePropertiesAbridged_dict. reparse_class.
Qed.

Lemma RoomPropertiesAbridged_reparse :
  stable RoomPropertiesAbridged_parse_obj RoomPropertiesAbridged_dict.
Proof.
  intros obj p H. unfold RoomPropertiesAbridged_parse_obj in *. invert_ok H.
  unfold RoomPropertiesAbridged_dict. reparse_class.
Qed.

Lemma ModelProperties_reparse : stable ModelProperties_parse_obj ModelProperties_dict.
Proof.
  intros obj p H. unfold ModelProperties_parse_obj in *. invert_ok H.
  unfold ModelProperties_dict. reparse_class.
Qed.

#[local] Hint Resolve ShadePropertiesAbridged_reparse DoorPropertiesAbridged_reparse
  AperturePropertiesAbridged_reparse FacePropertiesAbridged_reparse
  RoomPropertiesAbridged_reparse ModelProperties_reparse : reparse.

Lemma Shade_reparse : stable Shade_parse_obj Shade_dict.
Proof.
  intros obj s H. unfold Shade_parse_obj in *. invert_ok H.
  unfold Shade_dict, Shade_init. reparse_class.
Qed.

#[local] Hint Resolve Shade_reparse : reparse.

Lemma Door_reparse : stable Door_parse_obj Door_dict.
Proof.
  intros obj d H. unfold Door_parse_obj in *. invert_ok H.
  unfold Door_dict, Door_init. reparse_class.
Qed.

#[local] Hint Resolve Door_reparse : reparse.

Lemma Aperture_reparse : stable Aperture_parse_obj Aperture_dict.
Proof.
  intros obj a H. unfold Aperture_parse_obj in *. invert_ok H.
  unfold Aperture_dict, Aperture_init. reparse_class.
Qed.

#[local] Hint Resolve Aperture_reparse : reparse.

Lemma Face_reparse : stable Face_parse_obj Face_dict.
Proof.
  intros obj f H. unfold Face_parse_obj in *. invert_ok H.
  unfold Face_dict, Face_init. reparse_class.
Qed.

#[local] Hint Resolve Face_reparse : reparse.

Lemma Room_reparse : stable Room_parse_obj Room_dict.
Proof.
  intros obj r H. unfold Room_parse_obj in *. invert_ok H.
  unfold Room_dict, Room_init. reparse_class.
Qed.

#[local] Hint Resolve Room_reparse : reparse.


(** *** Boundary conditions, face types and discriminators *)


Lemma FaceType_validate_spec (s : string) :
  (exists t, FaceType_validate s = Ok t /\ FaceType_value t = s /\ In s FaceType_values)
  \/ (FaceType_validate s = ValidationError [([], EnumError)] /\ ~ In s FaceType_values).
Proof.
  unfold FaceType_validate, FaceType_values.
  destruct (String.eqb_spec s "Wall") as [Heq|H1];
    [left; exists wall; subst; simpl; tauto|].
  destruct (String.eqb_spec s "Floor") as [Heq|H2];
    [left; exists floor; subst; simpl; tauto|].
  destruct (String.eqb_spec s "RoofCeiling") as [Heq|H3];
    [left; exists roof_ceiling; subst; simpl; tauto|].
  destruct (String.eqb_spec s "AirWall") as [Heq|H4];
    [left; exists air_wall; subst; simpl; tauto|].
  right. split; [reflexivity|]. simpl. intuition congruence.
Qed.

(** X10.  The [face_type] of a Face is one of the four values of [FaceType]:
    each member is obtained from its own value and from no other string, any
    other string is rejected under [face_type], an absent [face_type] is
    reported as missing, and the [face_type] of a constructed Face has the
    value that was given. *)
Theorem Face_face_type_checked :
  (forall t, FaceType_validate (FaceType_value t) = Ok t)
  /\ (forall s t, FaceType_validate s = Ok t -> FaceType_value t = s)
  /\ (forall (obj : FaceObj) l e,
     In (Key "face_type" :: l, e) (errors_of (Face_parse_obj obj)) <->
     l = [] /\
     match FaceObj_face_type obj with
     | None => e = MissingError
     | Some s => e = EnumError /\ ~ In s FaceType_values
     end)
  /\ (forall (obj : FaceObj) f, Face_parse_obj obj = Ok f ->
     FaceObj_face_type obj = Some (FaceType_value (Face_face_type f))).
Proof.
  split; [|split; [|split]].
  - intros t. destruct t; reflexivity.
  - intros s t H. destruct (FaceType_validate_spec s) as [[t' [H' [Hv _]]] | [H' _]];
      rewrite H' in H; inversion H; congruence.
  - intros obj l e. rewrite In_errors_at. unfold Face_parse_obj. field_errors.
    destruct (FaceObj_face_type obj) as [s|].
    + destruct (FaceType_validate_spec s) as [[t [H [_ Hin]]] | [H Hnin]];
        rewrite H; simpl.
      * split; [intros [] | intros [_ [_ Hn]]; contradiction].
      * split; [intros [H'|[]]; inversion H'; auto | intros [-> [-> _]]; left; reflexivity].
    + simpl. split; [intros [H|[]]; inversion H; auto | intros [-> ->]; left; reflexivity].
  - intros obj f H. unfold Face_parse_obj in H. invert_ok H.
    cbn [Face_init Face_face_type].
    match goal with
    | Hf : required "face_type" _ _ = Ok _ |- _ =>
        apply required_Ok in Hf; destruct Hf as [s [Hs Hval]]
    end.
    rewrite Hs. f_equal.
    destruct (FaceType_validate_spec s) as [[t' [H' [Hv _]]] | [H' _]];
      rewrite H' in Hval; inversion Hval; congruence.
Qed.

Lemma constr_type_errors (lit : string) (t : option string) (l : Loc) (e : ErrorMsg) :
  In (l, e) (match t with
             | None => []
             | Some s => errors_of (constr lit s)
             end) <->
  l = [] /\ e = StrRegexError ("^" ++ lit ++ "$") /\ ~ type_matches lit t.
Proof.
  destruct t as [s|]; simpl; [|tauto].
  unfold constr, re_match_literal.
  destruct (String.eqb_spec s lit) as [Heq|Hne]; simpl; [tauto|].
  destruct (String.eqb_spec s (lit ++ newline)) as [Heq'|Hne']; simpl; [tauto|].
  split.
  - intros [H|[]]. inversion H. tauto.
  - intros [-> [-> _]]. left; reflexivity.
Qed.

(** The errors under [type], in the errors of a constructor. *)
Ltac type_field_errors :=
  let obj := fresh "obj" in
  let l := fresh "l" in
  let e := fresh "e" in
  intros obj l e; rewrite In_errors_at;
  match goal with
  | |- In _ (errors_at _ (errors_of (?parse _))) <-> _ => unfold parse
  end;
  field_errors; apply constr_type_errors.

(** X11.  Every class checks its [type] against the pattern of its own name:
    a [type] that is given and does not match is reported under [type] with
    the pattern, and nothing else is ever reported there. *)
Theorem type_discriminator_errors :
  ((forall obj, type_errors (errors_of (Plane_parse_obj obj)) "Plane" (PlaneObj_type obj))
   /\ (forall obj,
       type_errors (errors_of (Face3D_parse_obj obj)) "Face3D" (Face3DObj_type obj)))
  /\ ((forall obj : ShadeObj,
       type_errors (errors_of (Shade_parse_obj obj)) "Shade" (ShadeObj_type obj))
   /\ (forall obj : DoorObj,
       type_errors (errors_of (Door_parse_obj obj)) "Door" (DoorObj_type obj))
   /\ (forall obj : ApertureObj,
       type_errors (errors_of (Aperture_parse_obj obj)) "Aperture" (ApertureObj_type obj))
   /\ (forall obj : FaceObj,
       type_errors (errors_of (Face_parse_obj obj)) "Face" (FaceObj_type obj))
   /\ (forall obj : RoomObj,
       type_errors (errors_of (Room_parse_obj obj)) "Room" (RoomObj_type obj))
   /\ (forall obj : ModelObj,
       type_errors (errors_of (Model_parse_obj obj)) "Model" (ModelObj_type obj)))
  /\ ((forall obj : ShadePropertiesAbridgedObj,
       type_errors (errors_of (ShadePropertiesAbridged_parse_obj obj))
         "ShadePropertiesAbridged" (ShadePropertiesAbridgedObj_type obj))
   /\ (forall obj : DoorPropertiesAbridgedObj,
       type_errors (errors_of (DoorPropertiesAbridged_parse_obj obj))
         "DoorPropertiesAbridged" (DoorPropertiesAbridgedObj_type obj))
   /\ (forall obj : AperturePropertiesAbridgedObj,
       type_errors (errors_of (AperturePropertiesAbridged_parse_obj obj))
         "AperturePropertiesAbridged" (AperturePropertiesAbridgedObj_type obj))
   /\ (forall obj : FacePropertiesAbridgedObj,
       type_errors (errors_of (FacePropertiesAbridged_parse_obj obj))
         "FacePropertiesAbridged" (FacePropertiesAbridgedObj_type obj))
   /\ (forall obj : RoomPropertiesAbridgedObj,
       type_errors (errors_of (RoomPropertiesAbridged_parse_obj obj))
         "RoomPropertiesAbridged" (RoomPropertiesAbridgedObj_type obj))
   /\ (forall obj : ModelPropertiesObj,
       type_errors (errors_of (ModelProperties_parse_obj obj))
         "ModelProperties" (ModelPropertiesObj_type obj))).
Proof.
  repeat match goal with |- _ /\ _ => split end; type_field_errors.
Qed.

Lemma type_field_Ok (k lit : string) (t : option string) (s : string) :
  with_default k t lit (constr lit) = Ok s ->
  type_matches lit (Some s) /\ (t = None -> s = lit).
Proof.
  intros H. apply with_default_Ok in H. destruct H as [[-> ->] | [a [-> H]]].
  - split; [left; reflexivity | reflexivity].
  - split; [|discriminate].
    unfold constr, re_match_literal in H.
    destruct (String.eqb_spec a lit) as [Heq|Hne]; simpl in H.
    + inversion H; subst. left; reflexivity.
    + destruct (String.eqb_spec a (lit ++ newline)) as [Heq'|Hne']; simpl in H;
        inversion H; subst. right; reflexivity.
Qed.

(** The [type] of a constructed object, from the equation of its field. *)
Ltac type_of_constructed parse :=
  let obj := fresh "obj" in
  let x := fresh "x" in
  let H := fresh "H" in
  intros obj x H; unfold parse in H; invert_ok H;
  unfold Shade_init, Door_init, Aperture_init, Face_init, Room_init, Model_init;
  simpl;
  match goal with
  | Ht : with_default "type" _ _ _ = Ok _ |- _ => exact (type_field_Ok _ _ _ Ht)
  end.

(** X12.  The [type] of every constructed entity names its class: it
    matches the pattern of the class, and it is the name of the class when
    the data had no [type]. *)
Theorem constructed_type_names_class :
  (forall obj p, Plane_parse_obj obj = Ok p ->
     type_matches "Plane" (Some (Plane_type p))
     /\ (PlaneObj_type obj = None -> Plane_type p = "Plane"))
  /\ (forall obj g, Face3D_parse_obj obj = Ok g ->
     type_matches "Face3D" (Some (Face3D_type g))
     /\ (Face3DObj_type obj = None -> Face3D_type g = "Face3D"))
  /\ (forall obj s, Shade_parse_obj obj = Ok s ->
     type_matches "Shade" (Some (Shade_type s))
     /\ (ShadeObj_type obj = None -> Shade_type s = "Shade"))
  /\ (forall obj d, Door_parse_obj obj = Ok d ->
     type_matches "Door" (Some (Door_type d))
     /\ (DoorObj_type obj = None -> Door_type d = "Door"))
  /\ (forall obj a, Aperture_parse_obj obj = Ok a ->
     type_matches "Aperture" (Some (Aperture_type a))
     /\ (ApertureObj_type obj = None -> Aperture_type a = "Aperture"))
  /\ (forall obj f, Face_parse_obj obj = Ok f ->
     type_matches "Face" (Some (Face_type f))
     /\ (FaceObj_type obj = None -> Face_type f = "Face"))
  /\ (forall obj r, Room_parse_obj obj = Ok r ->
     type_matches "Room" (Some (Room_type r))
     /\ (RoomObj_type obj = None -> Room_type r = "Room"))
  /\ (forall obj m, Model_parse_obj obj = Ok m ->
     type_matches "Model" (Some (Model_type m))
     /\ (ModelObj_type obj = None -> Model_type m = "Model")).
Proof.
  split; [type_of_constructed Plane_parse_obj|].
  split; [type_of_constructed Face3D_parse_obj|].
  split; [type_of_constructed Shade_parse_obj|].
  split; [type_of_constructed Door_parse_obj|].
  split; [type_of_constructed Aperture_parse_obj|].
  split; [type_of_constructed Face_parse_obj|].
  split; [type_of_constructed Room_parse_obj|].
  type_of_constructed Model_parse_obj.
Qed.

(** *** Required fields *)

Lemma list_items_located (A B : Type) (item : A -> Result B) (v : list A) :
  forall (k : nat) (e : ErrorMsg), ~ In ([], e) (errors_of (list_items item k v)).
Proof.
  induction v as [|a rest IH]; intros k e; simpl; [intros []|].
  rewrite errors_of_ap, errors_of_fmap, in_app_iff, In_at_loc.
  intros [[l' [Heq _]] | H]; [discriminate | exact (IH _ _ H)].
Qed.

Lemma Face3D_errors_located (obj : Face3DObj) (e : ErrorMsg) :
  ~ In ([], e) (errors_of (Face3D_parse_obj obj)).
Proof.
  unfold Face3D_parse_obj. rewrite !errors_of_ap, errors_of_fmap, !in_app_iff.
  intros [[[H|H]|H]|H];
    first [ apply In_with_default_key in H
          | apply In_required_key in H
          | apply In_optional_key in H ];
    destruct H as [l' H]; discriminate.
Qed.

Lemma faces_not_missing (faces : list FaceObj) :
  ~ In ([], MissingError) (errors_of (conlist (Some 4) None Face_parse_obj faces)).
Proof.
  destruct (Nat.lt_ge_cases (length faces) 4) as [Hlt|Hge].
  - rewrite conlist_min_short by exact Hlt. intros [H|[]]. discriminate.
  - rewrite conlist_min_enough by exact Hge. apply list_items_located.
Qed.

(** The error of a missing field under the key [k] of a constructor. *)
Ltac missing_iff located :=
  let obj := fresh "obj" in
  intros obj; rewrite In_errors_at;
  match goal with
  | |- In _ (errors_at _ (errors_of (?parse _))) <-> _ => unfold parse
  end;
  field_errors;
  match goal with
  | |- context [match ?v with _ => _ end] => destruct v as [x|]
  end;
  [ split; [intros H; exfalso; revert H; located | discriminate]
  | split; [reflexivity | intros _; left; reflexivity] ].

(** X13.  The geometry of a Shade, Door, Aperture and Face, the faces of a
    Room and the boundary of a Face3D are required: the error of a missing
    field is reported under the key exactly when the data does not have it. *)
Theorem required_fields_missing :
  (forall obj : ShadeObj,
     In ([Key "geometry"], MissingError) (errors_of (Shade_parse_obj obj)) <->
     ShadeObj_geometry obj = None)
  /\ (forall obj : DoorObj,
     In ([Key "geometry"], MissingError) (errors_of (Door_parse_obj obj)) <->
     DoorObj_geometry obj = None)
  /\ (forall obj : ApertureObj,
     In ([Key "geometry"], MissingError) (errors_of (Aperture_parse_obj obj)) <->
     ApertureObj_geometry obj = None)
  /\ (forall obj : FaceObj,
     In ([Key "geometry"], MissingError) (errors_of (Face_parse_obj obj)) <->
     FaceObj_geometry obj = None)
  /\ (forall obj : RoomObj,
     In ([Key "faces"], MissingError) (errors_of (Room_parse_obj obj)) <->
     RoomObj_faces obj = None)
  /\ (forall obj : Face3DObj,
     In ([Key "boundary"], MissingError) (errors_of (Face3D_parse_obj obj)) <->
     Face3DObj_boundary obj = None).
Proof.
  split; [missing_iff ltac:(apply Face3D_errors_located)|].
  split; [missing_iff ltac:(apply Face3D_errors_located)|].
  split; [missing_iff ltac:(apply Face3D_errors_located)|].
  split; [missing_iff ltac:(apply Face3D_errors_located)|].
  split; [missing_iff ltac:(apply faces_not_missing)|].
  missing_iff ltac:(rewrite boundary_errors;
                    destruct (forallb has_xyz x); simpl;
                    [intros [] | intros [H|[]]; discriminate]).
Qed.

(** *** What holds of a constructed object *)

Lemma Plane_vectors_ok (obj : PlaneObj) :
  is_ok (Plane_parse_obj obj) = true ->
  (exists n, PlaneObj_n obj = Some n /\ length n = 3)
  /\ (exists o, PlaneObj_o obj = Some o /\ length o = 3)
  /\ (forall x, PlaneObj_x obj = Some x -> length x = 3).
Proof.
  unfold Plane_parse_obj.
  rewrite !is_ok_ap, is_ok_fmap, !andb_true_iff, !is_ok_required, is_ok_optional.
  intros [[[_ [n [Hn Hn3]]] [o [Ho Ho3]]] Hx].
  apply is_ok_conlist3 in Hn3. apply is_ok_conlist3 in Ho3.
  repeat split; eauto.
  intros x Hx'. apply is_ok_conlist3. exact (Hx x Hx').
Qed.

(** X14.  The points of a constructed Face3D have 3 coordinates each, in the
    boundary and in every hole, and the vectors of a constructed Plane have
    3 values each. *)
Theorem constructed_geometry_arity :
  (forall obj g, Face3D_parse_obj obj = Ok g ->
     (forall pt, In pt (Face3D_boundary g) -> length pt = 3)
     /\ (forall h loop pt, Face3D_holes g = Some h ->
         In loop h -> In pt loop -> length pt = 3))
  /\ (forall obj p, Plane_parse_obj obj = Ok p ->
     length (Plane_n p) = 3 /\ length (Plane_o p) = 3
     /\ (forall x, Plane_x p = Some x -> length x = 3)).
Proof.
  split.
  - intros obj g H. unfold Face3D_parse_obj in H. invert_ok H.
    cbn [Face3D_boundary Face3D_holes].
    repeat match goal with
           | Hf : required _ _ _ = Ok _ |- _ =>
               apply required_Ok in Hf; destruct Hf as [b [_ Hb]]
           | Hf : optional "holes" _ _ = Ok _ |- _ =>
               apply optional_Ok in Hf;
               destruct Hf as [[_ Hnone] | [h0 [h1 [_ [Hh Hsome]]]]]
           end.
    + pose proof (keeps_boundary _ Hb) as Heq. subst. split.
      * apply is_ok_boundary. rewrite Hb. reflexivity.
      * intros h loop pt Hh. discriminate.
    + pose proof (keeps_boundary _ Hb) as Heq.
      pose proof (keeps_holes _ Hh) as Heq'. subst. split.
      * apply is_ok_boundary. rewrite Hb. reflexivity.
      * intros h loop pt Hh'. inversion Hh'; subst h.
        apply is_ok_holes. rewrite Hh. reflexivity.
  - intros obj p H.
    assert (Hok : is_ok (Plane_parse_obj obj) = true) by (rewrite H; reflexivity).
    apply Plane_vectors_ok in Hok.
    destruct Hok as [[n [Hn Hn3]] [[o [Ho Ho3]] Hx]].
    unfold Plane_parse_obj in H. invert_ok H. cbn [Plane_n Plane_o Plane_x].
    repeat match goal with
           | Hf : required _ _ (conlist _ _ any) = Ok _ |- _ =>
               eapply required_keeps in Hf; [|apply keeps_conlist_any]
           | Hf : optional _ _ (conlist _ _ any) = Ok _ |- _ =>
               eapply optional_keeps in Hf; [|apply keeps_conlist_any]
           end.
    split; [congruence|]. split; [congruence|].
    intros x Hx'. apply Hx. congruence.
Qed.

(** X15.  The boundary condition of a constructed Door or Aperture is
    [Outdoors] or a [Surface] with exactly 3 linked objects, and a [Surface]
    boundary condition of a constructed Face has exactly 2. *)
Theorem constructed_boundary_condition :
  (forall obj d, Door_parse_obj obj = Ok d ->
     Door_boundary_condition d = Outdoors
     \/ exists objs, Door_boundary_condition d = Surface objs /\ length objs = 3)
  /\ (forall obj a, Aperture_parse_obj obj = Ok a ->
     Aperture_boundary_condition a = Outdoors
     \/ exists objs, Aperture_boundary_condition a = Surface objs /\ length objs = 3)
  /\ (forall obj f objs, Face_parse_obj obj = Ok f ->
     Face_boundary_condition f = Surface objs -> length objs = 2).
Proof.
  split; [|split].
  - intros obj d H. unfold Door_parse_obj in H. invert_ok H.
    cbn [Door_init Door_boundary_condition].
    match goal with
    | Hf : required "boundary_condition" _ _ = Ok ?b |- _ =>
        apply required_Ok in Hf; destruct Hf as [v [_ Hv]];
        assert (Hk := keeps_Door_bc _ Hv); subst b;
        destruct v as [| | |objs]; try discriminate Hv;
        [left; reflexivity | right; exists objs; split; [reflexivity|]]
    end.
    unfold Union_Outdoors_Surface, Door_suface_bc_objects in Hv.
    cbn [and_then bc_type boundary_condition_objects String.eqb Ascii.eqb Bool.eqb]
      in Hv.
    destruct (Nat.eqb_spec (length objs) 3); [assumption | discriminate].
  - intros obj a H. unfold Aperture_parse_obj in H. invert_ok H.
    cbn [Aperture_init Aperture_boundary_condition].
    match goal with
    | Hf : required "boundary_condition" _ _ = Ok ?b |- _ =>
        apply required_Ok in Hf; destruct Hf as [v [_ Hv]];
        assert (Hk := keeps_Aperture_bc _ Hv); subst b;
        destruct v as [| | |objs]; try discriminate Hv;
        [left; reflexivity | right; exists objs; split; [reflexivity|]]
    end.
    unfold Union_Outdoors_Surface, Aperture_suface_bc_objects in Hv.
    cbn [and_then bc_type boundary_condition_objects String.eqb Ascii.eqb Bool.eqb]
      in Hv.
    destruct (Nat.eqb_spec (length objs) 3); [assumption | discriminate].
  - intros obj f objs H. unfold Face_parse_obj in H. invert_ok H.
    cbn [Face_init Face_boundary_condition]. intros Hs.
    match goal with
    | Hf : required "boundary_condition" _ _ = Ok ?b |- _ =>
        apply required_Ok in Hf; destruct Hf as [v [_ Hv]];
        assert (Hk := keeps_Face_bc _ Hv); subst b; subst v
    end.
    unfold Union_Ground_Outdoors_Adiabatic_Surface, Face_suface_bc_objects in Hv.
    cbn [and_then bc_type boundary_condition_objects String.eqb Ascii.eqb Bool.eqb]
      in Hv.
    destruct (Nat.eqb_spec (length objs) 2); [assumption | discriminate].
Qed.

(** X16.  The [north_angle] of a constructed Model is a finite number that
    is at least 0 and less than 360: what is not a number and the infinities
    are rejected like any value out of the range. *)
Theorem constructed_north_angle (obj : ModelObj) (m : Model) :
  Model_parse_obj obj = Ok m ->
  exists q, Model_north_angle m = Finite q /\ (0 <= q)%Q /\ (q < 360)%Q.
Proof.
  intros H. unfold Model_parse_obj in H. invert_ok H.
  cbn [Model_init Model_north_angle].
  match goal with
  | Hf : with_default "north_angle" _ _ _ = Ok _ |- _ =>
      apply with_default_Ok in Hf; destruct Hf as [[_ ->] | [v [_ Hv]]]
  end.
  - exists (inject_Z 0). split; [reflexivity|]. split; [discriminate | reflexivity].
  - rewrite number_size_validator_spec in Hv.
    destruct v as [q| | |]; try discriminate.
    destruct (Qle_bool 0 q) eqn:Hge; [|discriminate].
    destruct (Qle_bool 360 q) eqn:Hlt; [discriminate|].
    inversion Hv; subst. exists q. split; [reflexivity|].
    split; [apply Qle_bool_iff; exact Hge|].
    apply Qnot_le_lt. intros Hle. apply Qle_bool_iff in Hle. congruence.
Qed.

(** ** Renaming *)

Section RenameVerdict.

Variable f : string -> string.
Hypothesis f_valid : forall s, valid_name (f s) = valid_name s.

Lemma name_verdict (s : string) :
  same_verdict (NamedBaseModel_name s) (NamedBaseModel_name (f s)).
Proof.
  unfold NamedBaseModel_name. rewrite f_valid.
  destruct (valid_name s); split; reflexivity.
Qed.

Lemma same_verdict_conlist (A B : Type) (lo hi : option nat) (g : A -> A)
    (item : A -> Result B) (l : list A) :
  (forall a, same_verdict (item a) (item (g a))) ->
  same_verdict (conlist lo hi item l) (conlist lo hi item (map g l)).
Proof.
  intros H. unfold conlist, list_length_validator. rewrite length_map.
  destruct lo as [lo|], hi as [hi|]; simpl;
    repeat match goal with
           | |- context [if ?c then _ else _] => destruct c; simpl
           end;
    try (split; reflexivity); apply same_verdict_list_items, H.
Qed.

(** The fields of the renamed data against those of the data, one by one
    from the last. *)
Ltac same_fields child :=
  repeat (apply same_verdict_ap;
          [| first [ apply same_verdict_refl
                   | apply same_verdict_optional_list; child
                   | apply same_verdict_required; intros;
                     apply same_verdict_conlist; child ] ]);
  apply same_verdict_fmap, same_verdict_required, name_verdict.

Lemma Shade_rename_verdict (obj : ShadeObj) :
  same_verdict (Shade_parse_obj obj) (Shade_parse_obj (Shade_rename f obj)).
Proof.
  unfold Shade_parse_obj, Shade_rename; cbn -[option_map].
  same_fields idtac.
Qed.

Lemma Door_rename_verdict (obj : DoorObj) :
  same_verdict (Door_parse_obj obj) (Door_parse_obj (Door_rename f obj)).
Proof.
  unfold Door_parse_obj, Door_rename; cbn -[option_map].
  same_fields idtac.
Qed.

Lemma Aperture_rename_verdict (obj : ApertureObj) :
  same_verdict (Aperture_parse_obj obj) (Aperture_parse_obj (Aperture_rename f obj)).
Proof.
  unfold Aperture_parse_obj, Aperture_rename, rename_list; cbn -[option_map].
  same_fields ltac:(exact Shade_rename_verdict).
Qed.

Lemma Face_rename_verdict (obj : FaceObj) :
  same_verdict (Face_parse_obj obj) (Face_parse_obj (Face_rename f obj)).
Proof.
  unfold Face_parse_obj, Face_rename, rename_list; cbn -[option_map].
  same_fields ltac:(first [ exact Shade_rename_verdict
                          | exact Door_rename_verdict
                          | exact Aperture_rename_verdict ]).
Qed.

Lemma Room_rename_verdict (obj : RoomObj) :
  same_verdict (Room_parse_obj obj) (Room_parse_obj (Room_rename f obj)).
Proof.
  unfold Room_parse_obj, Room_rename, rename_list; cbn -[option_map].
  same_fields ltac:(first [ exact Shade_rename_verdict
                          | exact Face_rename_verdict ]).
Qed.

(** C2, as the code has it.  The construction of a Model does not compare
    the names of its entities: applying to every name of the tree a function
    that keeps each name's own validity, whether or not it makes names
    collide, changes neither the errors of the construction nor whether it
    succeeds. *)
Theorem Model_names_not_compared (obj : ModelObj) :
  errors_of (Model_parse_obj (Model_rename f obj)) = errors_of (Model_parse_obj obj)
  /\ is_ok (Model_parse_obj (Model_rename f obj)) = is_ok (Model_parse_obj obj).
Proof.
  assert (H : same_verdict (Model_parse_obj obj) (Model_parse_obj (Model_rename f obj))).
  { unfold Model_parse_obj, Model_rename, rename_list; cbn -[option_map].
    same_fields ltac:(first [ exact Shade_rename_verdict
                            | exact Door_rename_verdict
                            | exact Aperture_rename_verdict
                            | exact Face_rename_verdict
                            | exact Room_rename_verdict ]). }
  destruct H as [He Ho]. split; symmetry; assumption.
Qed.

End RenameVerdict.

End Schema.

Arguments sample_shade {_} name.
Arguments sample_door {_} name.
Arguments sample_aperture {_ _} name bc.
Arguments sample_face {_ _ _ _} name bc.
Arguments tetrahedron_faces {_ _ _ _}.
Arguments tetrahedron {_ _ _ _ _} energy.
Arguments sample_model {_ _ _ _ _ _} energy faces shades north_angle.
Arguments sample_face_with {_ _ _ _} name apertures.
Arguments room_of {_ _ _ _ _} energy faces.
Arguments shade_of {_} name boundary.
Arguments model_of {_ _ _ _ _ _} energy rooms.

(** ** The claims on sample data *)

(** In the samples the constraint on names is [sample_valid_name] and the
    payloads of the engines are of type [unit]. *)

(** Two of the scenarios of the spec, run on the embedding: the Room of 4
    triangular faces, and a Model with an orphaned face and no rooms. *)
Example tetrahedron_constructs :
  let room : RoomObj unit unit unit unit unit := tetrahedron tt in
  is_ok (Room_parse_obj sample_valid_name room) = true.
Proof. reflexivity. Qed.

Example orphan_model_constructs :
  let model : ModelObj unit unit unit unit unit unit :=
    sample_model tt (Some [sample_face "f1" Outdoors]) None None in
  is_ok (Model_parse_obj sample_valid_name model) = true.
Proof. reflexivity. Qed.

(** An Aperture whose Surface boundary condition links 2 objects, "A" and
    "B", is rejected. *)
Lemma surface_bc_objects_arity_witness :
  let aperture : ApertureObj unit unit := sample_aperture "ap" (Surface ["A"; "B"]) in
  is_ok (Aperture_parse_obj sample_valid_name aperture) = false.
Proof.
  intros aperture.
  apply (proj1 (proj2 (surface_bc_objects_arity sample_valid_name unit unit unit unit))
           aperture ["A"; "B"] eq_refl).
  simpl. discriminate.
Defined.

(** Two orphaned shades of the same name: the names of the Model are not
    all different and the Model is constructed. *)
Lemma duplicate_names_accepted :
  let model : ModelObj unit unit unit unit unit unit :=
    sample_model tt None (Some [sample_shade "s"; sample_shade "s"]) None in
  ~ NoDup (Model_names model)
  /\ is_ok (Model_parse_obj sample_valid_name model) = true.
Proof.
  split; [|reflexivity].
  intros H. vm_compute in H. inversion H as [|x l Hnotin Hrest]; subst.
  apply Hnotin. left; reflexivity.
Qed.

(** Renaming the shades "s1" and "s2" to "a" changes nothing. *)
Lemma Model_names_not_compared_witness :
  let model : ModelObj unit unit unit unit unit unit :=
    sample_model tt None (Some [sample_shade "s1"; sample_shade "s2"]) None in
  errors_of (Model_parse_obj sample_valid_name (Model_rename collapse_names model)) =
  errors_of (Model_parse_obj sample_valid_name model)
  /\ is_ok (Model_parse_obj sample_valid_name (Model_rename collapse_names model)) =
     is_ok (Model_parse_obj sample_valid_name model).
Proof.
  intros model.
  apply (Model_names_not_compared sample_valid_name collapse_names).
  intros s. unfold collapse_names.
  destruct (sample_valid_name s) eqn:Hs; [reflexivity | exact Hs].
Defined.

(** A boundary of 2 points is accepted. *)
Lemma Face3D_boundary_count_unchecked_witness :
  Face3D_parse_obj (geometry_of [point 0 0 0; point 1 0 0]) =
  Ok {| Face3D_type := "Face3D";
        Face3D_boundary := [point 0 0 0; point 1 0 0];
        Face3D_holes := None;
        Face3D_plane := None |}.
Proof.
  apply Face3D_boundary_count_unchecked.
  intros p Hin. simpl in Hin.
  destruct Hin as [<- | [<- | []]]; reflexivity.
Defined.

(** A Shade without [properties] is rejected. *)
Lemma properties_envelope_witness :
  let shade : ShadeObj unit :=
    {| ShadeObj_name := Some "s";
       ShadeObj_display_name := None;
       ShadeObj_type := None;
       ShadeObj_geometry := Some (geometry_of triangle);
       ShadeObj_properties := None |} in
  is_ok (Shade_parse_obj sample_valid_name shade) = false.
Proof.
  intros shade.
  apply (proj1 (proj1 (properties_envelope sample_valid_name
                         unit unit unit unit unit unit))).
  reflexivity.
Defined.

(** The envelope of a Room without [energy] is rejected. *)
Lemma Room_envelope_needs_energy :
  let envelope : RoomPropertiesAbridgedObj unit :=
    {| RoomPropertiesAbridgedObj_type := None;
       RoomPropertiesAbridgedObj_energy := None |} in
  RoomPropertiesAbridgedObj_energy envelope = None
  /\ is_ok (RoomPropertiesAbridged_parse_obj envelope) = false.
Proof. split; reflexivity. Qed.

(** A boundary with a point of 2 coordinates is rejected. *)
Lemma Face3D_point_arity_witness :
  is_ok (Face3D_parse_obj
           (geometry_of [point 0 0 0; [float_of_int 1; float_of_int 0]; point 0 1 0]))
  = false.
Proof.
  apply (proj1 (proj2 (proj2 (Face3D_point_arity _)))).
  exists [float_of_int 1; float_of_int 0]. split.
  - simpl. right; left; reflexivity.
  - simpl. discriminate.
Defined.

(** The Room of 4 accepted faces is constructed. *)
Lemma Room_faces_min_items_witness :
  let room : RoomObj unit unit unit unit unit := tetrahedron tt in
  is_ok (Room_parse_obj sample_valid_name room) = true.
Proof.
  intros room.
  apply (proj2 (Room_faces_min_items sample_valid_name room
                  (faces := tetrahedron_faces) eq_refl)).
  - simpl. lia.
  - intros f Hin. simpl in Hin.
    destruct Hin as [<- | [<- | [<- | [<- | []]]]]; reflexivity.
  - reflexivity.
Defined.

(** A Model turned by 90 degrees is constructed. *)
Lemma Model_north_angle_range_witness :
  let model : ModelObj unit unit unit unit unit unit :=
    sample_model tt None None (Some (float_of_int 90)) in
  is_ok (Model_parse_obj sample_valid_name model) = true.
Proof.
  intros model.
  apply (proj1 (Model_north_angle_range sample_valid_name model
                  (v := float_of_int 90) eq_refl) (inject_Z 90) eq_refl).
  - unfold Qle. simpl. lia.
  - unfold Qlt. simpl. lia.
  - reflexivity.
Defined.




(** Holes of 0, 1 and 2 points are accepted. *)
Lemma holes_loop_length_unchecked_witness :
  let holes := [[]; [point 0 0 0]; [point 0 0 0; point 1 0 0]] in
  Face3D_parse_obj (Face3DObj_set_holes (geometry_of triangle) (Some holes)) =
  Ok {| Face3D_type := "Face3D";
        Face3D_boundary := triangle;
        Face3D_holes := Some holes;
        Face3D_plane := None |}.
Proof.
  intros holes.
  assert (Hall : forall loop p, In loop holes -> In p loop -> length p = 3).
  { intros loop p Hl Hp. simpl in Hl.
    destruct Hl as [<- | [<- | [<- | []]]]; simpl in Hp.
    - contradiction.
    - destruct Hp as [<- | []]; reflexivity.
    - destruct Hp as [<- | [<- | []]]; reflexivity. }
  apply (proj2 (holes_loop_length_unchecked (geometry_of triangle) holes Hall)
           {| Face3D_type := "Face3D";
              Face3D_boundary := triangle;
              Face3D_holes := None;
              Face3D_plane := None |}).
  reflexivity.
Defined.

(** ** The further properties on sample data *)

(** A Shade whose boundary has a point of 2 coordinates reports the
    assertion under [geometry.boundary]. *)
Lemma nested_object_errors_witness :
  let shade : ShadeObj unit :=
    shade_of "s" [point 0 0 0; [float_of_int 1; float_of_int 0]; point 0 1 0] in
  In ([Key "geometry"; Key "boundary"], AssertionError xyz_msg)
     (errors_of (Shade_parse_obj sample_valid_name shade)).
Proof.
  intros shade.
  apply (proj1 (proj2 (nested_object_errors sample_valid_name
                         unit unit unit unit unit unit))
           shade (geometry_of _) eq_refl).
  vm_compute. left; reflexivity.
Defined.

(** The second of two orphaned shades has a point of 2 coordinates: the
    assertion is reported under [orphaned_shades[1].geometry.boundary]. *)
Lemma list_item_errors_witness :
  let model : ModelObj unit unit unit unit unit unit :=
    sample_model tt None
      (Some [sample_shade "s1";
             shade_of "s2" [point 0 0 0; [float_of_int 1; float_of_int 0]]])
      None in
  In ([Key "orphaned_shades"; Index 1; Key "geometry"; Key "boundary"],
      AssertionError xyz_msg)
     (errors_of (Model_parse_obj sample_valid_name model)).
Proof.
  intros model.
  apply (proj1 (proj2 (proj2 (proj1 (list_item_errors sample_valid_name
                                       unit unit unit unit unit unit))))
           model _ eq_refl).
  eexists. split; [reflexivity|]. vm_compute. left; reflexivity.
Defined.

(** The Aperture of the third face of the Room of a Model links 2 objects:
    the assertion is reported under
    [rooms[0].faces[2].apertures[0].boundary_condition]. *)
Lemma Model_aperture_error_path_witness :
  let model : ModelObj unit unit unit unit unit unit :=
    model_of tt
      [room_of tt
         [sample_face "f1" Outdoors; sample_face "f2" Outdoors;
          sample_face_with "f3" [sample_aperture "ap" (Surface ["A"; "B"])];
          sample_face "f4" Outdoors]] in
  In ([Key "rooms"; Index 0; Key "faces"; Index 2; Key "apertures"; Index 0;
       Key "boundary_condition"],
      AssertionError
        "Aperture Surface boundary condition must have 3 boundary_condition_objects.")
     (errors_of (Model_parse_obj sample_valid_name model))
  /\ is_ok (Model_parse_obj sample_valid_name model) = false.
Proof.
  intros model.
  eapply Model_aperture_error_path with (i := 0) (j := 2) (k := 0);
    try reflexivity.
  vm_compute. left; reflexivity.
Defined.

(** The Room of 4 faces is constructed with its 4 faces. *)
Lemma children_constructed_witness :
  let room : RoomObj unit unit unit unit unit := tetrahedron tt in
  exists r,
    Room_parse_obj sample_valid_name room = Ok r /\ 4 <= length (Room_faces r).
Proof.
  intros room. eexists. split; [vm_compute; reflexivity|].
  apply (proj1 (proj2 (children_constructed sample_valid_name
                         unit unit unit unit unit unit))
           room _ eq_refl).
Defined.


(** A Face given as a "Wall" is constructed as a wall. *)
Lemma Face_face_type_checked_witness :
  let face : FaceObj unit unit unit unit := sample_face "f" Outdoors in
  exists f,
    Face_parse_obj sample_valid_name face = Ok f
    /\ FaceObj_face_type face = Some (FaceType_value (Face_face_type f)).
Proof.
  intros face. eexists. split; [vm_compute; reflexivity|].
  apply (proj2 (proj2 (proj2 (Face_face_type_checked sample_valid_name
                                unit unit unit unit)))
           face _ eq_refl).
Defined.

(** A Shade given without [type] is constructed with the type "Shade". *)
Lemma constructed_type_names_class_witness :
  let shade : ShadeObj unit := sample_shade "s" in
  exists s,
    Shade_parse_obj sample_valid_name shade = Ok s /\ Shade_type s = "Shade".
Proof.
  intros shade. eexists. split; [vm_compute; reflexivity|].
  apply (proj1 (proj2 (proj2 (constructed_type_names_class sample_valid_name
                                unit unit unit unit unit unit)))
           shade _ eq_refl).
  reflexivity.
Defined.

(** The points of the Face3D constructed from the triangle. *)
Lemma constructed_geometry_arity_witness :
  exists g,
    Face3D_parse_obj (geometry_of triangle) = Ok g
    /\ forall pt, In pt (Face3D_boundary g) -> length pt = 3.
Proof.
  eexists. split; [vm_compute; reflexivity|].
  apply (proj1 constructed_geometry_arity (geometry_of triangle) _ eq_refl).
Defined.

(** The boundary condition of the Door constructed from the sample. *)
Lemma constructed_boundary_condition_witness :
  let door : DoorObj unit := sample_door "d" in
  exists d,
    Door_parse_obj sample_valid_name door = Ok d
    /\ (Door_boundary_condition d = Outdoors
        \/ exists objs, Door_boundary_condition d = Surface objs /\ length objs = 3).
Proof.
  intros door. eexists. split; [vm_compute; reflexivity|].
  apply (proj1 (constructed_boundary_condition sample_valid_name unit unit unit unit)
           door _ eq_refl).
Defined.

(** The [north_angle] of the Model turned by 90 degrees. *)
Lemma constructed_north_angle_witness :
  let model : ModelObj unit unit unit unit unit unit :=
    sample_model tt None None (Some (float_of_int 90)) in
  exists m,
    Model_parse_obj sample_valid_name model = Ok m
    /\ exists q, Model_north_angle m = Finite q /\ (0 <= q)%Q /\ (q < 360)%Q.
Proof.
  intros model. eexists. split; [vm_compute; reflexivity|].
  apply (constructed_north_angle sample_valid_name model). reflexivity.
Defined.
